(** * google-doc-sheet-bypass: the document acquisition pipeline of [main.py]

    A shallow embedding of [src/main.py].  The program is a sequential
    pipeline: HTTP fetch, HTML look-ups, conversion, and zip assembly.
    Python code that raises, logs and performs requests is written in a
    state-and-exception monad; the network and the third party libraries
    whose code is not part of the repository (the [requests] transport,
    the [html.parser] tree builder, [prettify], [HtmlToDocx], the member
    names that [zipfile] turns down) and the table of decimal digits of the
    Unicode database are the variables of the section [Pipeline]. *)

From Stdlib Require Import List String Ascii Bool Arith NArith ZArith Lia.
Import ListNotations.
Open Scope string_scope.
Open Scope list_scope.
Set Warnings "-register-all".

(** String concatenation, as in an f-string. *)
Infix "+++" := String.append (right associativity, at level 60).

(** ** Python values *)

(** A [bytes] object is a sequence of octets, and a [str] is held as its
    UTF-8 encoding, a lone surrogate (which a [str] can hold) as the three
    bytes from ED A0 80 to ED BF BF that stand for it; both are Rocq strings.
    Equality, concatenation and the search for ASCII characters are the same
    on the encoding as on the code points; the length of a string is the
    number of its bytes. *)
Definition bytes := string.

Inductive PyExc : Type :=
| RequestException               (* what [requests.get] raises: connection, timeout, ... *)
| AttributeError                 (* attribute access on [None] *)
| TypeError                      (* [re.sub] on a subject that is not a string *)
| ValueError (msg : string)
| ConversionError (msg : string) (* raised inside [HtmlToDocx] *)
| ParserRejectedMarkup           (* raised by [BeautifulSoup] when the builder gives up *)
| IndexError                     (* indexing an empty string *)
| UnicodeEncodeError             (* encoding a [str] that holds a lone surrogate *)
| StructError                    (* [struct.error], raised inside [zipfile] *)
| Exception (msg : string).

Inductive Result (A : Type) : Type :=
| Ok (a : A)
| Raise (e : PyExc).
Arguments Ok {A} a.
Arguments Raise {A} e.

Inductive LogRecord : Type :=
| LogInfo (msg : string)        (* logging.info *)
| LogError (msg : string)       (* logging.error *)
| LogException (msg : string).  (* logging.exception: ERROR with the traceback *)

(** ** [requests] *)

Record Response : Type := mkResponse {
  status_code : Z;
  content : bytes;
  text : string
}.

Inductive HttpOutcome : Type :=
| Responded (r : Response)
| RequestRaised.

(** [Response.__bool__] is [Response.ok]: false exactly for 4xx and 5xx. *)
Definition response_ok (r : Response) : bool :=
  negb ((400 <=? status_code r)%Z && (status_code r <? 600)%Z).

(** Truth value of a value of type [Response | None]. *)
Definition truthy_response (r : option Response) : bool :=
  match r with
  | Some r => response_ok r
  | None => false
  end.

(** ** [re] *)

Fixpoint take (n : nat) (s : string) : string :=
  match n, s with
  | S n', String c s' => String c (take n' s')
  | _, _ => ""
  end.

Fixpoint drop (n : nat) (s : string) : string :=
  match n, s with
  | S n', String _ s' => drop n' s'
  | _, _ => s
  end.

Definition is_ascii_digit (c : ascii) : bool :=
  ((48 <=? nat_of_ascii c) && (nat_of_ascii c <=? 57))%nat.

(** UTF-8: the number of bytes of the character a lead byte opens (0 for a
    byte that opens none), and the bytes that continue a character. *)
Definition utf8_width (c : ascii) : nat :=
  let n := nat_of_ascii c in
  if (n <? 128)%nat then 1
  else if (n <? 194)%nat then 0
  else if (n <? 224)%nat then 2
  else if (n <? 240)%nat then 3
  else if (n <? 245)%nat then 4
  else 0.

Definition is_continuation (c : ascii) : bool :=
  ((128 <=? nat_of_ascii c) && (nat_of_ascii c <? 192))%nat.

Fixpoint all_continuation (s : string) : bool :=
  match s with
  | EmptyString => true
  | String c s' => is_continuation c && all_continuation s'
  end.

Section Patterns.

(** The decimal digits of the Unicode database (category Nd) beyond ASCII:
    [unicode_decimal p] tells whether the character whose UTF-8 encoding is
    [p] is one.  Which characters are depends on the version of the
    database; below 128 the decimal digits are ['0'..'9'] in every version. *)
Variable unicode_decimal : string -> bool.

(** What [\d] matches at the head of [s]: the number of bytes of the decimal
    digit that [s] begins with, 0 when it begins with none. *)
Definition digit_len (s : string) : nat :=
  match s with
  | EmptyString => 0
  | String c rest =>
      if (nat_of_ascii c <? 128)%nat then
        if is_ascii_digit c then 1 else 0
      else
        let n := utf8_width c in
        let p := take n s in
        if ((String.length p =? n)%nat && (2 <=? n)%nat
            && all_continuation (take (n - 1) rest) && unicode_decimal p)
        then n else 0
  end.

(** The longest prefix of decimal digits: what a greedy [\d+] or [\d*] takes.
    Every step takes one digit, so [fuel] steps exhaust a string of [fuel]
    bytes. *)
Fixpoint take_digits_fuel (fuel : nat) (s : string) : string :=
  match fuel with
  | O => ""
  | S fuel' =>
      match digit_len s with
      | O => ""
      | S n => take (S n) s +++ take_digits_fuel fuel' (drop (S n) s)
      end
  end.

Definition take_digits (s : string) : string :=
  take_digits_fuel (String.length s) s.

(** [re.match(r"gid=(\d+)", s)]: group 1 of a match anchored at the start. *)
Definition match_gid (s : string) : option string :=
  if String.prefix "gid=" s then
    match take_digits (drop 4 s) with
    | EmptyString => None
    | d => Some d
    end
  else None.

(** The scan of [re.findall]: leftmost matches, non-overlapping.  [skip] is
    the number of bytes still covered by the previous match. *)
Fixpoint findall_gid_from (skip : nat) (s : string) : list string :=
  match s with
  | EmptyString => []
  | String _ s' =>
      match skip with
      | S k => findall_gid_from k s'
      | O =>
          match match_gid s with
          | Some d => d :: findall_gid_from (3 + String.length d) s'
          | None => findall_gid_from 0 s'
          end
      end
  end.

(** [re.findall(r"gid=(\d+)", s)] *)
Definition re_findall_gid (s : string) : list string := findall_gid_from 0 s.

End Patterns.

(** The character class [[./ ]]. *)
Definition is_sep (c : ascii) : bool :=
  Ascii.eqb c "." || Ascii.eqb c "/" || Ascii.eqb c " ".

(** [in_run] tells that the previous character was already replaced. *)
Fixpoint sub_seps_from (in_run : bool) (s : string) : string :=
  match s with
  | EmptyString => ""
  | String c s' =>
      if is_sep c then
        if in_run then sub_seps_from true s'
        else String "_" (sub_seps_from true s')
      else String c (sub_seps_from false s')
  end.

(** [re.sub(r"[./ ]+", "_", s)] *)
Definition re_sub_seps (s : string) : string := sub_seps_from false s.

(** ** [dict.fromkeys] *)

Definition mem (k : string) (l : list string) : bool :=
  existsb (String.eqb k) l.

(** The keys of an insertion-ordered dict: a key that is already there keeps
    its place. *)
Definition dict_setdefault (keys : list string) (k : string) : list string :=
  if mem k keys then keys else keys ++ [k].

(** [list(dict.fromkeys(l))] *)
Definition dict_fromkeys (l : list string) : list string :=
  fold_left dict_setdefault l [].

(** ** [bs4] *)

(** The parse tree: strings and tags.  Of a tag's attributes only [class]
    is looked at by the program; bs4 holds it as a list of class names. *)
Inductive Node : Type :=
| NavigableString (s : string)
| Tag (name : string) (classes : list string) (children : list Node).

Section Find.
(** What [find] is asked to match: the tag name and the classes. *)
Variable wanted : string -> list string -> bool.

(** First match in document order among a node and its descendants. *)
Fixpoint find_at (n : Node) : option Node :=
  match n with
  | NavigableString _ => None
  | Tag name classes children =>
      if wanted name classes then Some n
      else
        (fix first (l : list Node) : option Node :=
           match l with
           | [] => None
           | c :: l' =>
               match find_at c with
               | Some t => Some t
               | None => first l'
               end
           end) children
  end.

Fixpoint find_first (l : list Node) : option Node :=
  match l with
  | [] => None
  | c :: l' =>
      match find_at c with
      | Some t => Some t
      | None => find_first l'
      end
  end.

(** [tag.find(...)]: the first matching descendant, the tag itself excluded. *)
Definition find (n : Node) : option Node :=
  match n with
  | NavigableString _ => None
  | Tag _ _ children => find_first children
  end.
End Find.

(** [soup.title], that is [soup.find("title")] *)
Definition soup_title (soup : Node) : option Node :=
  find (fun name _ => String.eqb name "title") soup.

(** [tag.find("div", {"class": "doc"})] *)
Definition find_div_doc (n : Node) : option Node :=
  find (fun name classes => String.eqb name "div" && mem "doc" classes) n.

(** [tag.find("div")] *)
Definition find_div (n : Node) : option Node :=
  find (fun name _ => String.eqb name "div") n.

(** [tag.string]: the single child when it is a string, or that of the single
    child tag; [None] for no child or several. *)
Fixpoint tag_string (n : Node) : option string :=
  match n with
  | NavigableString s => Some s
  | Tag _ _ [c] => tag_string c
  | Tag _ _ _ => None
  end.

(** ** [zipfile] *)

(** [ZipInfo] ends a member name at its first NUL character. *)
Fixpoint until_nul (s : string) : string :=
  match s with
  | EmptyString => ""
  | String c s' => if Ascii.eqb c zero then "" else String c (until_nul s')
  end.

(** An archive: its members in insertion order, path and data. *)
Definition Archive := list (string * bytes).

Definition paths (a : Archive) : list string := map fst a.

(** ** The interpreter state and the monad of Python code *)

Record State : Type := mkState {
  requests : list string;    (* URLs of the GET requests issued so far *)
  logs : list LogRecord;     (* records handed to [logging] so far *)
  zip_file : Archive         (* members written to the open [ZipFile] *)
}.

Definition M (A : Type) : Type := State -> Result A * State.

Definition ret {A} (a : A) : M A := fun st => (Ok a, st).

Definition raise {A} (e : PyExc) : M A := fun st => (Raise e, st).

Definition bind {A B} (m : M A) (k : A -> M B) : M B :=
  fun st =>
    match m st with
    | (Ok a, st') => k a st'
    | (Raise e, st') => (Raise e, st')
    end.

Notation "x <- m ;; k" := (bind m (fun x => k))
  (at level 61, m at next level, right associativity).
Notation "m ;; k" := (bind m (fun _ => k))
  (at level 61, right associativity).

(** [try: body  except Exception: handler] *)
Definition try_except {A} (body : M A) (handler : PyExc -> M A) : M A :=
  fun st =>
    match body st with
    | (Ok a, st') => (Ok a, st')
    | (Raise e, st') => handler e st'
    end.

Definition lift {A} (r : Result A) : M A := fun st => (r, st).

Definition add_log (r : LogRecord) (st : State) : State :=
  mkState (requests st) (logs st ++ [r]) (zip_file st).

Definition logging_info (msg : string) : M unit :=
  fun st => (Ok tt, add_log (LogInfo msg) st).

Definition logging_error (msg : string) : M unit :=
  fun st => (Ok tt, add_log (LogError msg) st).

Definition logging_exception (msg : string) : M unit :=
  fun st => (Ok tt, add_log (LogException msg) st).

Definition add_request (url : string) (st : State) : State :=
  mkState (requests st ++ [url]) (logs st) (zip_file st).

Section Writer.

(** The member names that [zipfile] turns down, with the exception it raises
    for each: [zip_refusal name] is [None] for a name that it takes. *)
Variable zip_refusal : string -> option PyExc.

(** [zip_file.writestr(name, data)]: a name that is turned down raises
    before anything is written, and the archive stays open for further
    members. *)
Definition writestr (name : string) (data : bytes) : M unit :=
  fun st =>
    match zip_refusal (until_nul name) with
    | None =>
        (Ok tt, mkState (requests st) (logs st) (zip_file st ++ [(until_nul name, data)]))
    | Some e => (Raise e, st)
    end.

End Writer.

(** [for x in l: body(x)] *)
Fixpoint for_each {A} (l : list A) (body : A -> M unit) : M unit :=
  match l with
  | [] => ret tt
  | x :: l' => body x ;; for_each l' body
  end.

(** * The program *)

Section Pipeline.

(** The decimal digits beyond ASCII, as in [Patterns]. *)
Variable unicode_decimal : string -> bool.

(** The network: what [requests.get(url, timeout=60)] does, given the
    requests already issued.  It answers or raises. *)
Variable http : list string -> string -> HttpOutcome.

(** [BeautifulSoup(text, "html.parser")]: the root of the parse tree, or the
    exception raised for markup that the builder rejects. *)
Variable html_parser : string -> Result Node.

(** [tag.prettify()] *)
Variable prettify : Node -> string.

(** [HtmlToDocx().parse_html_string(html)] followed by [doc.save(buffer)]:
    the bytes of the saved document, or the exception the converter raised. *)
Variable html_to_docx : string -> Result bytes.

(** The member names that [zipfile] turns down, as in [Writer]. *)
Variable zip_refusal : string -> option PyExc.

Definition requests_get (url : string) : M Response :=
  fun st =>
    match http (requests st) url with
    | Responded r => (Ok r, add_request url st)
    | RequestRaised => (Raise RequestException, add_request url st)
    end.

Definition fetch_url (url : string) : M (option Response) :=
  try_except
    (response <- requests_get url ;;
     ret (if (status_code response =? 200)%Z then Some response else None))
    (fun _ =>
       logging_exception ("Failed to fetch: " +++ url) ;;
       ret None).

Definition fetch_html (url : string) : M (option Node) :=
  response <- fetch_url url ;;
  if negb (truthy_response response) then ret None
  else
    match response with
    | Some r => soup <- lift (html_parser (text r)) ;; ret (Some soup)
    | None => raise AttributeError
    end.

Definition htmlview_url (spreadsheet_id : string) : string :=
  "https://docs.google.com/spreadsheets/u/0/d/" +++ spreadsheet_id +++ "/htmlview".

Definition export_url (spreadsheet_id sheet_id : string) : string :=
  "https://docs.google.com/spreadsheets/d/" +++ spreadsheet_id
    +++ "/export?format=csv&gid=" +++ sheet_id.

Definition gviz_url (spreadsheet_id sheet_id : string) : string :=
  "https://docs.google.com/spreadsheets/d/" +++ spreadsheet_id
    +++ "/gviz/tq?tqx=out:csv&gid=" +++ sheet_id.

Definition mobilebasic_url (doc_id : string) : string :=
  "https://docs.google.com/document/d/" +++ doc_id +++ "/mobilebasic".

Definition get_sheet_ids (spreadsheet_id : string) : M (list string) :=
  response <- fetch_url (htmlview_url spreadsheet_id) ;;
  if negb (truthy_response response) then ret ["0"]
  else
    match response with
    | None => raise AttributeError
    | Some r =>
        let sheet_ids := re_findall_gid unicode_decimal (text r) in
        match sheet_ids with
        | [] => ret ["0"]
        | _ => ret (dict_fromkeys sheet_ids)
        end
    end.

Definition get_spreadsheet_title (spreadsheet_id : string) : M string :=
  soup <- fetch_html (htmlview_url spreadsheet_id) ;;
  match soup with
  | None => ret ("spreadsheet_" +++ spreadsheet_id)
  | Some soup =>
      match soup_title soup with
      | None => ret ("spreadsheet_" +++ spreadsheet_id)
      | Some title_tag =>
          match tag_string title_tag with
          | Some title => ret (re_sub_seps title)
          | None => raise TypeError
          end
      end
  end.

(** Truth value of [response.content]. *)
Definition nonempty (b : string) : bool :=
  match b with
  | EmptyString => false
  | String _ _ => true
  end.

(** The loop of [create_sheet] over the URLs still to be tried. *)
Fixpoint create_sheet_loop (urls : list string) : M (option bytes) :=
  match urls with
  | [] => ret None
  | url :: rest =>
      response <- fetch_url url ;;
      if negb (truthy_response response) then create_sheet_loop rest
      else
        match response with
        | None => raise AttributeError
        | Some r =>
            if nonempty (content r) && negb (String.prefix "<!DOCTYPE" (content r))
            then ret (Some (content r))
            else create_sheet_loop rest
        end
  end.

Definition create_sheet (spreadsheet_id sheet_id : string) : M (option bytes) :=
  let urls := [export_url spreadsheet_id sheet_id; gviz_url spreadsheet_id sheet_id] in
  create_sheet_loop urls.

(** The loop of [create_spreadsheet]; [files] is the list built so far. *)
Fixpoint create_spreadsheet_loop (spreadsheet_id : string) (sheet_ids : list string)
    (files : list (string * bytes)) : M (list (string * bytes)) :=
  match sheet_ids with
  | [] => ret files
  | sheet_id :: rest =>
      buffer <- create_sheet spreadsheet_id sheet_id ;;
      match buffer with
      | None =>
          logging_error ("Failed to fetch sheet " +++ sheet_id +++ " for " +++ spreadsheet_id) ;;
          create_spreadsheet_loop spreadsheet_id rest files
      | Some buffer =>
          let filename := sheet_id +++ ".csv" in
          let files := files ++ [(filename, buffer)] in
          logging_info ("Successfully fetched sheet " +++ sheet_id) ;;
          create_spreadsheet_loop spreadsheet_id rest files
      end
  end.

Definition create_spreadsheet (spreadsheet_id : string) : M (list (string * bytes)) :=
  sheet_ids <- get_sheet_ids spreadsheet_id ;;
  files <- create_spreadsheet_loop spreadsheet_id sheet_ids [] ;;
  match files with
  | [] => raise (Exception "No sheet could be fetched")
  | _ => ret files
  end.

(** The title chosen by [create_document]: the page title when the soup, its
    title tag and the tag's string are all truthy. *)
Definition document_title (doc_id : string) (soup : option Node) : string :=
  let title := "document_" +++ doc_id in
  match soup with
  | Some soup =>
      match soup_title soup with
      | Some title_tag =>
          match tag_string title_tag with
          | Some s => if nonempty s then re_sub_seps s else title
          | None => title
          end
      | None => title
      end
  | None => title
  end.

(** Attribute access or method call on a value that may be [None]. *)
Definition attr {A B} (o : option A) (f : A -> B) : M B :=
  match o with
  | Some a => ret (f a)
  | None => raise AttributeError
  end.

Definition create_document (doc_id : string) : M (string * bytes) :=
  soup <- fetch_html (mobilebasic_url doc_id) ;;
  let title := document_title doc_id soup in
  outer <- attr soup find_div_doc ;;
  inner <- attr outer find_div ;;
  html <- attr inner prettify ;;
  buffer <- lift (html_to_docx html) ;;
  ret (title +++ ".docx", buffer).

(** [doc_type == s], for a form field that may be missing ([None]). *)
Definition py_eq (doc_type : option string) (s : string) : bool :=
  match doc_type with
  | Some t => String.eqb t s
  | None => false
  end.

(** The body of the [try] in [download], for one id. *)
Definition download_one (doc_type : option string) (doc_id : string) : M unit :=
  if py_eq doc_type "docx" then
    file <- create_document doc_id ;;
    writestr zip_refusal (fst file) (snd file)
  else if py_eq doc_type "csv" then
    dirname <- get_spreadsheet_title doc_id ;;
    files <- create_spreadsheet doc_id ;;
    for_each files
      (fun file => writestr zip_refusal (dirname +++ "/" +++ fst file) (snd file))
  else raise (ValueError "Invalid document type").

Definition download_loop (doc_type : option string) (doc_ids : list string) : M unit :=
  for_each doc_ids (fun doc_id =>
    try_except (download_one doc_type doc_id)
      (fun _ => logging_exception ("Failed to process document ID: " +++ doc_id))).

(** [download]: a fresh [ZipFile] is opened, the ids are processed, and the
    archive is what the response streams. *)
Definition download (doc_type : option string) (doc_ids : list string) : M Archive :=
  fun st =>
    match download_loop doc_type doc_ids (mkState (requests st) (logs st) []) with
    | (Ok _, st') => (Ok (zip_file st'), st')
    | (Raise e, st') => (Raise e, st')
    end.

End Pipeline.

(** * Specification-side definitions *)

(** A usable CSV answer, in the words of the specification: a response with
    status 200 whose body is non-empty and does not begin with the doctype
    marker.  Anything else, a raised request included, is absent. *)
Definition csv_body (o : HttpOutcome) : option bytes :=
  match o with
  | Responded r =>
      if (status_code r =? 200)%Z
         && nonempty (content r)
         && negb (String.prefix "<!DOCTYPE" (content r))
      then Some (content r)
      else None
  | RequestRaised => None
  end.

(** Position of the first occurrence of [k] in [l] (the length of [l] when
    [k] does not occur): the order of first appearance compares these. *)
Fixpoint index (k : string) (l : list string) : nat :=
  match l with
  | [] => 0
  | x :: l' => if String.eqb k x then 0 else S (index k l')
  end.

(** The page fetch succeeded: the request answered with status 200. *)
Definition fetched (o : HttpOutcome) : option Response :=
  match o with
  | Responded r => if (status_code r =? 200)%Z then Some r else None
  | RequestRaised => None
  end.

(** The page title, when the title element exists and has non-empty string
    content. *)
Definition page_title (soup : Node) : option string :=
  match soup_title soup with
  | Some title_tag =>
      match tag_string title_tag with
      | Some s => if nonempty s then Some s else None
      | None => None
      end
  | None => None
  end.

(** The state after one fetch: the request is on record, and a request that
    raised has been logged. *)
Definition after_fetch (http : list string -> string -> HttpOutcome)
    (url : string) (st : State) : State :=
  match http (requests st) url with
  | Responded _ => add_request url st
  | RequestRaised =>
      add_log (LogException ("Failed to fetch: " +++ url)) (add_request url st)
  end.

(** The tabs of a spreadsheet taken one after the other: for each tab what
    [create_sheet] returned for it, and the state once its line is logged. *)
Fixpoint tab_outcomes (http : list string -> string -> HttpOutcome)
    (spreadsheet_id : string) (tabs : list string) (st : State)
    : list (string * option bytes) * State :=
  match tabs with
  | [] => ([], st)
  | tab :: rest =>
      let (r, st1) := create_sheet http spreadsheet_id tab st in
      let body := match r with Ok b => b | Raise _ => None end in
      let line :=
        match body with
        | Some _ => LogInfo ("Successfully fetched sheet " +++ tab)
        | None => LogError ("Failed to fetch sheet " +++ tab +++ " for " +++ spreadsheet_id)
        end in
      let (os, st2) := tab_outcomes http spreadsheet_id rest (add_log line st1) in
      ((tab, body) :: os, st2)
  end.

(** The files of the tabs that were exported, each named [<tab_id>.csv]. *)
Fixpoint csv_files (os : list (string * option bytes)) : list (string * bytes) :=
  match os with
  | [] => []
  | (tab, Some body) :: rest => (tab +++ ".csv", body) :: csv_files rest
  | (_, None) :: rest => csv_files rest
  end.

(** Requests and log records are only ever added. *)
Definition grows (st st' : State) : Prop :=
  (exists l, requests st' = requests st ++ l) /\ (exists l, logs st' = logs st ++ l).

(** The archive is left as it is. *)
Definition same_zip (st st' : State) : Prop := zip_file st' = zip_file st.

(** A relation between the state before and the state after that holds
    across fetching and logging. *)
Class Bookkeeping (R : State -> State -> Prop) : Prop := {
  bk_refl : forall st, R st st;
  bk_trans : forall a b c, R a b -> R b c -> R a c;
  bk_log : forall r st, R st (add_log r st);
  bk_request : forall url st, R st (add_request url st)
}.

Definition respects {A} (R : State -> State -> Prop) (m : M A) : Prop :=
  forall st, R st (snd (m st)).

Definition with_zip (z : Archive) (st : State) : State :=
  mkState (requests st) (logs st) z.

Section Written.

Variable zip_refusal : string -> option PyExc.

(** The archive takes the name. *)
Definition writable (name : string) : bool :=
  match zip_refusal name with
  | None => true
  | Some _ => false
  end.

(** The entries of a list that get written: those before the first whose
    name is turned down. *)
Fixpoint fitting (es : Archive) : Archive :=
  match es with
  | [] => []
  | (name, data) :: rest =>
      if writable name then (name, data) :: fitting rest else []
  end.

Definition all_fit (es : Archive) : bool :=
  forallb (fun e => writable (fst e)) es.

(** The exception that ends the writing of a list of entries, if any. *)
Fixpoint write_error (es : Archive) : option PyExc :=
  match es with
  | [] => None
  | (name, _) :: rest =>
      match zip_refusal name with
      | Some e => Some e
      | None => write_error rest
      end
  end.

(** What the archive keeps of an id, given how its resolution ended. *)
Definition kept (r : Result Archive) : Archive :=
  match r with
  | Ok es => fitting es
  | Raise _ => []
  end.

(** The id was processed without error: it was resolved and every entry was
    written. *)
Definition processed (r : Result Archive) : bool :=
  match r with
  | Ok es => all_fit es
  | Raise _ => false
  end.

(** The members the archive keeps, in the order of the ids. *)
Fixpoint archived (os : list (string * Result Archive)) : Archive :=
  match os with
  | [] => []
  | (_, r) :: rest => kept r ++ archived rest
  end.

(** The ids that were not processed without error, in the order of the ids. *)
Fixpoint failed (os : list (string * Result Archive)) : list string :=
  match os with
  | [] => []
  | (doc_id, r) :: rest => if processed r then failed rest else doc_id :: failed rest
  end.

End Written.

Section Batch.

Variable unicode_decimal : string -> bool.
Variable http : list string -> string -> HttpOutcome.
Variable html_parser : string -> Result Node.
Variable prettify : Node -> string.
Variable html_to_docx : string -> Result bytes.
Variable zip_refusal : string -> option PyExc.

(** The members one id yields when it is resolved, under the names the
    archive stores: what its resolver returns, or the exception it raises. *)
Definition entries_of (doc_type : option string) (doc_id : string) : M Archive :=
  if py_eq doc_type "docx" then
    file <- create_document http html_parser prettify html_to_docx doc_id ;;
    ret [(until_nul (fst file), snd file)]
  else if py_eq doc_type "csv" then
    dirname <- get_spreadsheet_title http html_parser doc_id ;;
    files <- create_spreadsheet unicode_decimal http doc_id ;;
    ret (map (fun file => (until_nul (dirname +++ "/" +++ fst file), snd file)) files)
  else raise (ValueError "Invalid document type").

(** The ids of a batch taken one after the other: for each id how its
    resolution ended, and the state once the members kept of it are in the
    archive and, unless it was processed without error, its failure is
    logged. *)
Fixpoint outcomes (doc_type : option string) (doc_ids : list string) (st : State)
    : list (string * Result Archive) * State :=
  match doc_ids with
  | [] => ([], st)
  | doc_id :: rest =>
      let (r, st1) := entries_of doc_type doc_id st in
      let st2 := with_zip (zip_file st1 ++ kept zip_refusal r) st1 in
      let st3 :=
        if processed zip_refusal r then st2
        else add_log (LogException ("Failed to process document ID: " +++ doc_id)) st2 in
      let (os, st4) := outcomes doc_type rest st3 in
      ((doc_id, r) :: os, st4)
  end.

End Batch.

(** ** Shapes of tab ids, titles, URLs and log records *)

Section Shapes.

Variable unicode_decimal : string -> bool.

(** A run of decimal digits: the encodings of decimal digits, one after the
    other. *)
Inductive Run : string -> Prop :=
| Run_nil : Run ""
| Run_cons (c d : string) :
    c <> "" -> digit_len unicode_decimal c = String.length c -> Run d -> Run (c +++ d).

(** A tab id as [get_sheet_ids] hands them out: one decimal digit or more. *)
Definition tab_id (s : string) : Prop := s <> "" /\ Run s.

(** The text holds no [gid=] that a decimal digit follows. *)
Definition no_occurrence (s : string) : Prop :=
  forall a b, s = a +++ "gid=" +++ b -> digit_len unicode_decimal b = 0.

(** The occurrences of [gid=<digits>] in a text, from left to right, each
    with all the digits that follow it: the digits of the first occurrence,
    then the occurrences in what comes after these digits. *)
Inductive Occurrences : string -> list string -> Prop :=
| Occurrences_none (s : string) :
    no_occurrence s -> Occurrences s []
| Occurrences_first (a d b : string) (found : list string) :
    no_occurrence a ->
    tab_id d ->
    digit_len unicode_decimal b = 0 ->
    Occurrences b found ->
    Occurrences (a +++ "gid=" +++ d +++ b) (d :: found).

End Shapes.

(** No character of the class [[./ ]] occurs. *)
Fixpoint clean (s : string) : bool :=
  match s with
  | EmptyString => true
  | String c s' => negb (is_sep c) && clean s'
  end.

(** The record [fetch_url] leaves for a request that raised. *)
Definition fetch_failure (url : string) : LogRecord :=
  LogException ("Failed to fetch: " +++ url).

(** The record [download] leaves for an id whose processing raised. *)
Definition process_failure (doc_id : string) : LogRecord :=
  LogException ("Failed to process document ID: " +++ doc_id).

Definition is_process_failure (r : LogRecord) : bool :=
  match r with
  | LogException msg => String.prefix "Failed to process document ID: " msg
  | _ => false
  end.

(** From [st] to [st'] only requests in [Q] and log records in [L] were added. *)
Definition adds (Q : string -> Prop) (L : LogRecord -> Prop) (st st' : State) : Prop :=
  exists urls lines,
    requests st' = requests st ++ urls /\ Forall Q urls
    /\ logs st' = logs st ++ lines /\ Forall L lines.

(** The export URLs of the tabs of one spreadsheet. *)
Definition tab_url (spreadsheet_id : string) (tabs : list string) (url : string) : Prop :=
  exists tab, In tab tabs
    /\ (url = export_url spreadsheet_id tab \/ url = gviz_url spreadsheet_id tab).

Section BatchShapes.

Variable unicode_decimal : string -> bool.

(** The URLs a batch may ask for: the four templates, filled with an id of the
    batch and, for the exports, a tab id. *)
Definition batch_url (doc_ids : list string) (url : string) : Prop :=
  exists doc_id, In doc_id doc_ids
    /\ (url = mobilebasic_url doc_id
        \/ url = htmlview_url doc_id
        \/ exists tab, tab_id unicode_decimal tab
             /\ (url = export_url doc_id tab \/ url = gviz_url doc_id tab)).

(** The records the resolvers of a batch may log. *)
Definition resolver_log (doc_ids : list string) (r : LogRecord) : Prop :=
  (exists url, batch_url doc_ids url /\ r = fetch_failure url)
  \/ (exists tab, tab_id unicode_decimal tab
        /\ r = LogInfo ("Successfully fetched sheet " +++ tab))
  \/ (exists tab doc_id, tab_id unicode_decimal tab /\ In doc_id doc_ids
        /\ r = LogError ("Failed to fetch sheet " +++ tab +++ " for " +++ doc_id)).


End BatchShapes.

(** * Sample worlds *)

Definition st0 : State := mkState [] [] [].

(** A site: the pages it serves with status 200; any other URL is unreachable. *)
Fixpoint lookup {A} (k : string) (table : list (string * A)) : option A :=
  match table with
  | [] => None
  | (k', v) :: rest => if String.eqb k k' then Some v else lookup k rest
  end.

Definition page (body : string) : Response := mkResponse 200 body body.

Definition serve (site : list (string * Response)) : list string -> string -> HttpOutcome :=
  fun _ url =>
    match lookup url site with
    | Some r => Responded r
    | None => RequestRaised
    end.

(** Markup that the tree builder rejects. *)
Definition rejected_text : string := "<![foo]>".

(** A tree builder given by the trees of the pages it knows; it rejects
    [rejected_text], and any other text becomes a document holding that text
    only. *)
Definition parser_of (trees : list (string * Node)) : string -> Result Node :=
  fun text =>
    match lookup text trees with
    | Some t => Ok t
    | None =>
        if String.eqb text rejected_text then Raise ParserRejectedMarkup
        else Ok (Tag "[document]" [] [NavigableString text])
    end.

(** The length of the encoded name is written on two bytes of the member's
    header. *)
Definition name_fits (name : string) : bool :=
  (N.of_nat (String.length name) <=? 65535)%N.

(** The string holds a lone surrogate, which UTF-8 does not encode. *)
Fixpoint has_surrogate (s : string) : bool :=
  match s with
  | EmptyString => false
  | String c rest =>
      match rest with
      | EmptyString => false
      | String d _ =>
          ((N_of_ascii c =? 237) && (160 <=? N_of_ascii d) && (N_of_ascii d <=? 191))%N
          || has_surrogate rest
      end
  end.

(** The names that [writestr] turns down in CPython 3.11: it looks at the last
    character of the name, which an empty name does not have; and the header
    of the member holds the name encoded, and its length packed on two
    bytes. *)
Definition cpython_refusal (name : string) : option PyExc :=
  match name with
  | EmptyString => Some IndexError
  | String _ _ =>
      if has_surrogate name then Some UnicodeEncodeError
      else if name_fits name then None
      else Some StructError
  end.

(** A table of decimal digits beyond ASCII: the Arabic-Indic digits (U+0660
    to U+0669, encoded D9 A0 to D9 A9) and the fullwidth digits (U+FF10 to
    U+FF19, encoded EF BC 90 to EF BC 99). *)
Definition sample_decimal (p : string) : bool :=
  match p with
  | String a (String b EmptyString) =>
      ((nat_of_ascii a =? 217) && (160 <=? nat_of_ascii b) && (nat_of_ascii b <=? 169))%nat
  | String a (String b (String c EmptyString)) =>
      ((nat_of_ascii a =? 239) && (nat_of_ascii b =? 188)
       && (144 <=? nat_of_ascii c) && (nat_of_ascii c <=? 153))%nat
  | _ => false
  end.

(** The Arabic-Indic digit three, as UTF-8. *)
Definition arabic_three : string :=
  String (ascii_of_nat 217) (String (ascii_of_nat 163) EmptyString).

Definition sample_prettify (n : Node) : string := "<div>...</div>".

Definition sample_docx (html : string) : Result bytes := Ok ("PK:docx:" +++ html).

(** A preview page that links tab 7, tab 3 and tab 7 again. *)
Definition tabs_text : string :=
  "<a href='#gid=7'>A</a><a href='#gid=3'>B</a><a href='#gid=7'>A</a>".

(** A preview page that links a tab numbered with an Arabic-Indic digit. *)
Definition arabic_tabs_text : string :=
  "<a href='#gid=" +++ arabic_three +++ "'>A</a><a href='#gid=7'>B</a>".

Definition tabs_site : list (string * Response) :=
  [("https://docs.google.com/spreadsheets/u/0/d/sheetA/htmlview", page tabs_text);
   ("https://docs.google.com/spreadsheets/u/0/d/sheetU/htmlview", page arabic_tabs_text)].

(** A preview page whose title element is empty. *)
Definition untitled_text : string :=
  "<html><head><title></title></head><body><a href='#gid=0'>S</a></body></html>".

Definition untitled_soup : Node :=
  Tag "[document]" []
    [Tag "html" []
       [Tag "head" [] [Tag "title" [] []];
        Tag "body" [] [Tag "a" [] [NavigableString "S"]]]].

Definition untitled_site : list (string * Response) :=
  [("https://docs.google.com/spreadsheets/u/0/d/sheetB/htmlview", page untitled_text);
   ("https://docs.google.com/spreadsheets/d/sheetB/export?format=csv&gid=0", page "a,b")].

(** A document page whose content container holds text but no nested [div]. *)
Definition bare_doc_text : string :=
  "<html><head><title>Notes</title></head><body><div class='doc'>plain</div></body></html>".

Definition bare_doc_soup : Node :=
  Tag "[document]" []
    [Tag "html" []
       [Tag "head" [] [Tag "title" [] [NavigableString "Notes"]];
        Tag "body" [] [Tag "div" ["doc"] [NavigableString "plain"]]]].

(** The same without a title element. *)
Definition untitled_bare_doc_text : string :=
  "<html><head></head><body><div class='doc'>plain</div></body></html>".

Definition untitled_bare_doc_soup : Node :=
  Tag "[document]" []
    [Tag "html" []
       [Tag "head" [] [];
        Tag "body" [] [Tag "div" ["doc"] [NavigableString "plain"]]]].

(** A well-formed document page with a title. *)
Definition titled_doc_text : string :=
  "<html><head><title>My Doc / v1.2</title></head><body><div class='doc'><div><p>Hello</p></div></div></body></html>".

Definition titled_doc_soup : Node :=
  Tag "[document]" []
    [Tag "html" []
       [Tag "head" [] [Tag "title" [] [NavigableString "My Doc / v1.2"]];
        Tag "body" []
          [Tag "div" ["doc"] [Tag "div" [] [Tag "p" [] [NavigableString "Hello"]]]]]].

(** A well-formed document page without a title element. *)
Definition untitled_doc_text : string :=
  "<html><head></head><body><div class='doc'><div><p>Hello</p></div></div></body></html>".

Definition untitled_doc_soup : Node :=
  Tag "[document]" []
    [Tag "html" []
       [Tag "head" [] [];
        Tag "body" []
          [Tag "div" ["doc"] [Tag "div" [] [Tag "p" [] [NavigableString "Hello"]]]]]].

Definition doc_site : list (string * Response) :=
  [("https://docs.google.com/document/d/docA/mobilebasic", page bare_doc_text);
   ("https://docs.google.com/document/d/docB/mobilebasic", page untitled_bare_doc_text);
   ("https://docs.google.com/document/d/docC/mobilebasic", page titled_doc_text);
   ("https://docs.google.com/document/d/docD/mobilebasic", page untitled_doc_text);
   ("https://docs.google.com/document/d/docE/mobilebasic", page rejected_text)].

Definition doc_parser : string -> Result Node :=
  parser_of
    [(bare_doc_text, bare_doc_soup);
     (untitled_bare_doc_text, untitled_bare_doc_soup);
     (titled_doc_text, titled_doc_soup);
     (untitled_doc_text, untitled_doc_soup)].

(** A spreadsheet with a title and the tabs 7 and 3; the direct export of
    tab 3 answers with an HTML page, its query export with the CSV. *)
Definition sheet_text : string :=
  "<html><head><title>My Sheet / Q1.2024</title></head><body><a href='#gid=7'>A</a><a href='#gid=3'>B</a><a href='#gid=7'>A</a></body></html>".

Definition sheet_soup : Node :=
  Tag "[document]" []
    [Tag "html" []
       [Tag "head" [] [Tag "title" [] [NavigableString "My Sheet / Q1.2024"]];
        Tag "body" []
          [Tag "a" [] [NavigableString "A"];
           Tag "a" [] [NavigableString "B"];
           Tag "a" [] [NavigableString "A"]]]].

(** A spreadsheet with the tabs 1 and 2, of which only tab 1 can be exported. *)
Definition partial_text : string :=
  "<html><head><title>Partial</title></head><body><a href='#gid=1'>A</a><a href='#gid=2'>B</a></body></html>".

Definition partial_soup : Node :=
  Tag "[document]" []
    [Tag "html" []
       [Tag "head" [] [Tag "title" [] [NavigableString "Partial"]];
        Tag "body" []
          [Tag "a" [] [NavigableString "A"]; Tag "a" [] [NavigableString "B"]]]].

Definition sheet_site : list (string * Response) :=
  [("https://docs.google.com/spreadsheets/u/0/d/sheetC/htmlview", page sheet_text);
   ("https://docs.google.com/spreadsheets/d/sheetC/export?format=csv&gid=7", page "a,b");
   ("https://docs.google.com/spreadsheets/d/sheetC/export?format=csv&gid=3",
    page "<!DOCTYPE html><html><body>Sign in</body></html>");
   ("https://docs.google.com/spreadsheets/d/sheetC/gviz/tq?tqx=out:csv&gid=3", page "c,d");
   ("https://docs.google.com/spreadsheets/u/0/d/sheetD/htmlview", page partial_text);
   ("https://docs.google.com/spreadsheets/d/sheetD/export?format=csv&gid=1", page "e,f")].

Definition sheet_parser : string -> Result Node :=
  parser_of
    [(sheet_text, sheet_soup); (partial_text, partial_soup); (untitled_text, untitled_soup)].

(** A spreadsheet whose title is 65529 bytes long, with the tabs 7 and 10: the
    path of tab 7 has 65535 bytes, that of tab 10 one more. *)
Definition long_title : string := N.iter 65529 (String "t") EmptyString.

Definition long_text : string :=
  "<html><head><title>" +++ long_title
    +++ "</title></head><body><a href='#gid=7'>A</a><a href='#gid=10'>B</a></body></html>".

Definition long_soup : Node :=
  Tag "[document]" []
    [Tag "html" []
       [Tag "head" [] [Tag "title" [] [NavigableString long_title]];
        Tag "body" []
          [Tag "a" [] [NavigableString "A"]; Tag "a" [] [NavigableString "B"]]]].

Definition long_site : list (string * Response) :=
  [("https://docs.google.com/spreadsheets/u/0/d/sheetL/htmlview", page long_text);
   ("https://docs.google.com/spreadsheets/d/sheetL/export?format=csv&gid=7", page "a,b");
   ("https://docs.google.com/spreadsheets/d/sheetL/export?format=csv&gid=10", page "c,d")].

Definition long_parser : string -> Result Node :=
  parser_of [(long_text, long_soup)].

(** An identifier made of letters, digits, hyphens and underscores only, the
    alphabet of the identifiers the source service issues. *)
Definition safe_char (c : ascii) : bool :=
  let n := nat_of_ascii c in
  (((48 <=? n) && (n <=? 57)) || ((65 <=? n) && (n <=? 90)) || ((97 <=? n) && (n <=? 122))
   || (n =? 45) || (n =? 95))%nat.

Fixpoint safe_id (s : string) : bool :=
  match s with
  | EmptyString => true
  | String c s' => safe_char c && safe_id s'
  end.

(** * Properties *)

(** ** Ordered dict keys *)

Lemma mem_In (k : string) (l : list string) : mem k l = true <-> In k l.
Proof.
  unfold mem. rewrite existsb_exists. split.
  - intros [x [Hin Heq]]. apply String.eqb_eq in Heq. now subst.
  - intros Hin. exists k. split; [assumption | apply String.eqb_refl].
Qed.

Lemma mem_false (k : string) (l : list string) : mem k l = false <-> ~ In k l.
Proof.
  rewrite <- mem_In. destruct (mem k l); split; intros H; congruence.
Qed.

Lemma dict_fromkeys_snoc (l : list string) (k : string) :
  dict_fromkeys (l ++ [k]) = dict_setdefault (dict_fromkeys l) k.
Proof.
  unfold dict_fromkeys. rewrite fold_left_app. reflexivity.
Qed.

Lemma dict_fromkeys_In (l : list string) (k : string) :
  In k (dict_fromkeys l) <-> In k l.
Proof.
  induction l as [|x l IH] using rev_ind.
  - reflexivity.
  - rewrite dict_fromkeys_snoc. unfold dict_setdefault.
    destruct (mem x (dict_fromkeys l)) eqn:E.
    + apply mem_In in E. rewrite in_app_iff, <- IH. cbn. split.
      * intros H. now left.
      * intros [H | [<- | []]]; assumption.
    + rewrite !in_app_iff, IH. reflexivity.
Qed.

Lemma dict_fromkeys_NoDup (l : list string) : NoDup (dict_fromkeys l).
Proof.
  induction l as [|x l IH] using rev_ind.
  - constructor.
  - rewrite dict_fromkeys_snoc. unfold dict_setdefault.
    destruct (mem x (dict_fromkeys l)) eqn:E; [assumption|].
    apply mem_false in E.
    apply NoDup_app; [assumption | repeat constructor; intros [] | ].
    intros a Ha [<- | []]. contradiction.
Qed.

Lemma index_lt_length (k : string) (l : list string) :
  In k l <-> index k l < List.length l.
Proof.
  induction l as [|x l IH]; cbn.
  - split; [intros [] | lia].
  - destruct (String.eqb k x) eqn:E.
    + apply String.eqb_eq in E. subst. split; [lia | now left].
    + apply String.eqb_neq in E. rewrite <- Nat.succ_lt_mono, <- IH. split.
      * intros [H | H]; [congruence | assumption].
      * now right.
Qed.

Lemma index_app_In (k : string) (l m : list string) :
  In k l -> index k (l ++ m) = index k l.
Proof.
  induction l as [|x l IH]; cbn; [intros [] |].
  destruct (String.eqb k x) eqn:E; [reflexivity|].
  apply String.eqb_neq in E.
  intros [H | H]; [congruence | now rewrite IH].
Qed.

Lemma index_app_notin (k : string) (l m : list string) :
  ~ In k l -> index k (l ++ m) = List.length l + index k m.
Proof.
  induction l as [|x l IH]; cbn; [reflexivity|].
  intros H. destruct (String.eqb k x) eqn:E.
  - apply String.eqb_eq in E. subst. exfalso. apply H. now left.
  - rewrite IH; [reflexivity|]. intros Hin. apply H. now right.
Qed.

Lemma index_last (k : string) (l : list string) :
  ~ In k l -> index k (l ++ [k]) = List.length l.
Proof.
  intros H. rewrite index_app_notin by assumption.
  cbn. rewrite String.eqb_refl. lia.
Qed.

(** The keys come out in the order of their first appearance. *)
Lemma dict_fromkeys_order (l : list string) (x y : string) :
  In x l -> In y l ->
  (index x (dict_fromkeys l) < index y (dict_fromkeys l) <-> index x l < index y l).
Proof.
  induction l as [|k l IH] using rev_ind; [intros []|].
  intros Hx Hy. rewrite dict_fromkeys_snoc. unfold dict_setdefault.
  destruct (mem k (dict_fromkeys l)) eqn:E.
  - apply mem_In in E. rewrite dict_fromkeys_In in E.
    assert (Hx' : In x l)
      by (apply in_app_iff in Hx; destruct Hx as [H | [<- | []]]; assumption).
    assert (Hy' : In y l)
      by (apply in_app_iff in Hy; destruct Hy as [H | [<- | []]]; assumption).
    rewrite !index_app_In by assumption. now apply IH.
  - apply mem_false in E.
    assert (El : ~ In k l) by (now rewrite <- dict_fromkeys_In).
    assert (Hin : forall z, In z (l ++ [k]) -> In z l \/ z = k /\ ~ In z l).
    { intros z Hz. apply in_app_iff in Hz.
      destruct Hz as [H | [<- | []]]; [now left | right; now split]. }
    destruct (Hin x Hx) as [Hx' | [-> Hx']]; destruct (Hin y Hy) as [Hy' | [-> Hy']].
    + rewrite !index_app_In by (assumption || now apply (proj2 (dict_fromkeys_In _ _))).
      now apply IH.
    + rewrite (index_app_In x), (index_app_In x l)
        by (assumption || now apply (proj2 (dict_fromkeys_In _ _))).
      rewrite !index_last by assumption.
      apply (proj2 (dict_fromkeys_In _ _)) in Hx' as Hxd.
      apply index_lt_length in Hx'. apply index_lt_length in Hxd. lia.
    + rewrite (index_app_In y), (index_app_In y l)
        by (assumption || now apply (proj2 (dict_fromkeys_In _ _))).
      rewrite !index_last by assumption.
      apply (proj2 (dict_fromkeys_In _ _)) in Hy' as Hyd.
      apply index_lt_length in Hy'. apply index_lt_length in Hyd. lia.
    + lia.
Qed.

(** Only two keys, the first one seen first. *)
Lemma dict_fromkeys_two (a b : string) (rest : list string) :
  a <> b -> In b rest -> (forall k, In k rest -> k = a \/ k = b) ->
  dict_fromkeys (a :: rest) = [a; b].
Proof.
  intros Hab Hb Hall. unfold dict_fromkeys. cbn [fold_left].
  change (dict_setdefault [] a) with [a].
  assert (Step : forall l, (forall k, In k l -> k = a \/ k = b) ->
            fold_left dict_setdefault l [a; b] = [a; b]).
  { induction l as [|k l IH]; [reflexivity|]. intros H. cbn [fold_left].
    assert (Hk : dict_setdefault [a; b] k = [a; b]).
    { unfold dict_setdefault.
      destruct (H k (or_introl eq_refl)) as [-> | ->]; cbn;
        rewrite ?String.eqb_refl, ?orb_true_r; reflexivity. }
    rewrite Hk. apply IH. intros z Hz. apply H. now right. }
  induction rest as [|k rest IH]; [destruct Hb|].
  cbn [fold_left]. destruct (Hall k (or_introl eq_refl)) as [-> | ->].
  - assert (Ha : dict_setdefault [a] a = [a])
      by (unfold dict_setdefault; cbn; now rewrite String.eqb_refl).
    rewrite Ha. destruct Hb as [Hb | Hb]; [congruence|].
    apply IH; [assumption|]. intros z Hz. apply Hall. now right.
  - assert (Hb' : dict_setdefault [a] b = [a; b]).
    { unfold dict_setdefault. cbn.
      destruct (String.eqb b a) eqn:E; [|reflexivity].
      apply String.eqb_eq in E. congruence. }
    rewrite Hb'. apply Step. intros z Hz. apply Hall. now right.
Qed.

(** ** Strings *)

Lemma length_append (a b : string) :
  String.length (a +++ b) = String.length a + String.length b.
Proof. induction a as [|c a IH]; cbn; [reflexivity | now rewrite IH]. Qed.


Lemma append_inj_r (a x y : string) : x +++ a = y +++ a -> x = y.
Proof.
  revert y. induction x as [|c x IH]; intros [|c' y] H; cbn in H.
  - reflexivity.
  - apply (f_equal String.length) in H. cbn in H. rewrite length_append in H. lia.
  - apply (f_equal String.length) in H. cbn in H. rewrite length_append in H. lia.
  - injection H as <- H. f_equal. now apply IH.
Qed.

Lemma until_nul_append (a b : string) :
  until_nul a = a -> until_nul (a +++ b) = a +++ until_nul b.
Proof.
  induction a as [|c a IH]; cbn; [reflexivity|].
  destruct (Ascii.eqb c zero); [discriminate|].
  intros [= H]. now rewrite IH.
Qed.

(** ** Prefixes and suffixes *)

Lemma append_assoc (a b c : string) : (a +++ b) +++ c = a +++ b +++ c.
Proof. induction a as [|x a IH]; cbn; [reflexivity | now rewrite IH]. Qed.

Lemma append_nil_r (a : string) : a +++ "" = a.
Proof. induction a as [|x a IH]; cbn; [reflexivity | now rewrite IH]. Qed.

Lemma take_drop (n : nat) (s : string) : take n s +++ drop n s = s.
Proof.
  revert s. induction n as [|n IH]; intros [|c s]; cbn; try reflexivity.
  now rewrite IH.
Qed.

Lemma length_take (n : nat) (s : string) :
  String.length (take n s) = Nat.min n (String.length s).
Proof.
  revert s. induction n as [|n IH]; intros [|c s]; cbn; try reflexivity.
  now rewrite IH.
Qed.

Lemma length_drop (n : nat) (s : string) :
  String.length (drop n s) = String.length s - n.
Proof.
  revert s. induction n as [|n IH]; intros [|c s]; cbn; try reflexivity. apply IH.
Qed.

Lemma take_append (n : nat) (a b : string) :
  n <= String.length a -> take n (a +++ b) = take n a.
Proof.
  revert a. induction n as [|n IH]; intros a H.
  - now destruct a, b.
  - destruct a as [|c a]; cbn in *; [lia|]. rewrite IH by lia. reflexivity.
Qed.

Lemma take_length_append (a b : string) : take (String.length a) (a +++ b) = a.
Proof.
  induction a as [|c a IH]; cbn; [now destruct b | now rewrite IH].
Qed.

Lemma drop_length_append (a b : string) : drop (String.length a) (a +++ b) = b.
Proof. induction a as [|c a IH]; cbn; [reflexivity | exact IH]. Qed.

Lemma take_all (s : string) : take (String.length s) s = s.
Proof. induction s as [|c s IH]; cbn; [reflexivity | now rewrite IH]. Qed.

Lemma take_take (n : nat) (s : string) : take n (take n s) = take n s.
Proof.
  revert s. induction n as [|n IH]; intros [|c s]; cbn; try reflexivity.
  now rewrite IH.
Qed.

Lemma prefix_append (p s : string) :
  String.prefix p s = true -> s = p +++ drop (String.length p) s.
Proof.
  revert s. induction p as [|c p IH]; intros s; [reflexivity|].
  destruct s as [|c' s]; cbn; [discriminate|].
  destruct (ascii_dec c c') as [<-|]; [|discriminate].
  intros H. now rewrite <- IH.
Qed.

Lemma prefix_of_append (p s : string) : String.prefix p (p +++ s) = true.
Proof.
  induction p as [|c p IH]; cbn; [now destruct s|].
  destruct (ascii_dec c c); [exact IH | contradiction].
Qed.

(** ** Decimal digits and the scan for [gid=] *)

Lemma high_byte_not_nul (c : ascii) :
  (nat_of_ascii c <? 128)%nat = false -> Ascii.eqb c zero = false.
Proof.
  intros H. destruct (Ascii.eqb c zero) eqn:E; [|reflexivity].
  apply Ascii.eqb_eq in E. subst. discriminate.
Qed.

Lemma ascii_digit_not_nul (c : ascii) : is_ascii_digit c = true -> Ascii.eqb c zero = false.
Proof.
  intros H. destruct (Ascii.eqb c zero) eqn:E; [|reflexivity].
  apply Ascii.eqb_eq in E. subst. discriminate.
Qed.

Lemma all_continuation_no_nul (s : string) :
  all_continuation s = true -> until_nul s = s.
Proof.
  induction s as [|c s IH]; cbn; [reflexivity|].
  unfold is_continuation. intros H. apply andb_prop in H as [Hc Hs].
  apply andb_prop in Hc as [Hlow _].
  assert (Hz : Ascii.eqb c zero = false).
  { destruct (Ascii.eqb c zero) eqn:E; [|reflexivity].
    apply Ascii.eqb_eq in E. subst. discriminate. }
  now rewrite Hz, IH.
Qed.

(** The bytes [take k] reaches in [x +++ "g"...] lie in [x] when they are all
    continuation bytes. *)
Lemma all_continuation_before_g (k : nat) (x t : string) :
  all_continuation (take k (x +++ String "g" t)) = true ->
  take k (x +++ String "g" t) = take k x.
Proof.
  revert x. induction k as [|k IH]; intros [|c x]; cbn; try reflexivity.
  - discriminate.
  - intros H. apply andb_prop in H as [_ H]. now rewrite IH.
Qed.

Section Digits.

Variable nd : string -> bool.


(** What [digit_len nd] says of a string whose first byte is not ASCII. *)
Lemma digit_len_wide (c : ascii) (rest : string) (n : nat) :
  (nat_of_ascii c <? 128)%nat = false ->
  digit_len nd (String c rest) = S n ->
  utf8_width c = S n
  /\ String.length (take (S n) (String c rest)) = S n
  /\ all_continuation (take n rest) = true
  /\ nd (take (S n) (String c rest)) = true
  /\ (2 <=? S n)%nat = true.
Proof.
  intros Hc. unfold digit_len. rewrite Hc. cbv zeta.
  destruct (_ && _ && _ && _) eqn:E; [|discriminate].
  intros Hw. rewrite Hw in E.
  apply andb_prop in E as [E Hd]. apply andb_prop in E as [E Hk].
  apply andb_prop in E as [Hl H2]. apply Nat.eqb_eq in Hl.
  cbn [Nat.sub] in Hk. rewrite Nat.sub_0_r in Hk.
  now repeat split.
Qed.

Lemma digit_len_ascii (c : ascii) (rest : string) :
  (nat_of_ascii c <? 128)%nat = true ->
  digit_len nd (String c rest) = if is_ascii_digit c then 1 else 0.
Proof. intros Hc. unfold digit_len. now rewrite Hc. Qed.

Lemma digit_len_le (s : string) : digit_len nd s <= String.length s.
Proof.
  destruct s as [|c rest]; [cbn; lia|].
  destruct (nat_of_ascii c <? 128)%nat eqn:Hc.
  - rewrite digit_len_ascii by assumption. destruct (is_ascii_digit c); cbn; lia.
  - destruct (digit_len nd (String c rest)) as [|n] eqn:E; [lia|].
    destruct (digit_len_wide c rest n Hc E) as (_ & Hl & _).
    rewrite length_take in Hl. lia.
Qed.

(** [digit_len nd] looks at the bytes of the digit only. *)
Lemma digit_len_agree (s s' : string) (n : nat) :
  digit_len nd s = S n -> take (S n) s' = take (S n) s -> digit_len nd s' = S n.
Proof.
  destruct s as [|c rest]; [discriminate|].
  destruct s' as [|c' rest']; [discriminate|].
  cbn [take]. intros E [= -> Hrest].
  destruct (nat_of_ascii c <? 128)%nat eqn:Hc.
  - rewrite digit_len_ascii in * by assumption. exact E.
  - destruct (digit_len_wide c rest n Hc E) as (Hw & Hl & Hk & Hd & H2).
    unfold digit_len. rewrite Hc. cbv zeta. rewrite Hw.
    cbn [Nat.sub]. rewrite Nat.sub_0_r.
    cbn [take] in *. rewrite Hrest, Hk, Hd, H2.
    apply Nat.eqb_eq in Hl. rewrite Hl. reflexivity.
Qed.

Lemma digit_len_append (s t : string) (n : nat) :
  digit_len nd s = S n -> digit_len nd (s +++ t) = S n.
Proof.
  intros E. apply (digit_len_agree s); [exact E|].
  apply take_append. rewrite <- E. apply digit_len_le.
Qed.

Lemma digit_len_alone (s : string) (n : nat) :
  digit_len nd s = S n ->
  take (S n) s <> ""
  /\ digit_len nd (take (S n) s) = String.length (take (S n) s).
Proof.
  intros E. pose proof (digit_len_le s) as Hle. rewrite E in Hle.
  split; [destruct s; [cbn in Hle; lia | discriminate]|].
  rewrite length_take, Nat.min_l by exact Hle.
  apply (digit_len_agree s); [exact E | apply take_take].
Qed.

Lemma digit_len_no_nul (s : string) (n : nat) :
  digit_len nd s = S n -> until_nul (take (S n) s) = take (S n) s.
Proof.
  destruct s as [|c rest]; [discriminate|]. intros E.
  destruct (nat_of_ascii c <? 128)%nat eqn:Hc.
  - rewrite digit_len_ascii in E by assumption.
    destruct (is_ascii_digit c) eqn:D; [|discriminate].
    injection E as <-. cbn. rewrite (ascii_digit_not_nul c D). now destruct rest.
  - destruct (digit_len_wide c rest n Hc E) as (_ & _ & Hk & _).
    cbn [take until_nul]. rewrite (high_byte_not_nul c Hc).
    now rewrite (all_continuation_no_nul _ Hk).
Qed.

Lemma digit_len_before_g (x t : string) (n : nat) :
  digit_len nd (x +++ String "g" t) = S n -> digit_len nd x = S n.
Proof.
  destruct x as [|c x]; [discriminate|]. cbn [append]. intros E.
  destruct (nat_of_ascii c <? 128)%nat eqn:Hc.
  - rewrite digit_len_ascii in * by assumption. exact E.
  - destruct (digit_len_wide c _ n Hc E) as (Hw & Hl & Hk & _).
    pose proof (all_continuation_before_g n x t Hk) as Hx.
    apply (digit_len_agree (String c (x +++ String "g" t))); [exact E|].
    cbn [take]. now rewrite Hx.
Qed.

Lemma Run_no_nul (d : string) : Run nd d -> until_nul d = d.
Proof.
  induction 1 as [|c d Hne Hc _ IH]; [reflexivity|].
  rewrite until_nul_append; [now rewrite IH|].
  destruct (String.length c) as [|n] eqn:Hl; [destruct c; [contradiction | discriminate]|].
  pose proof (digit_len_no_nul c n Hc) as H.
  rewrite <- Hl, take_all in H. exact H.
Qed.

Lemma tab_id_no_nul (d : string) : tab_id nd d -> until_nul d = d.
Proof. intros [_ H]. now apply Run_no_nul. Qed.

Lemma Run_digit_len (d b : string) : tab_id nd d -> digit_len nd (d +++ b) <> 0.
Proof.
  intros [Hne Hrun]. destruct Hrun as [|c d Hc Hl _]; [contradiction|].
  destruct (String.length c) as [|n] eqn:E; [destruct c; [contradiction | discriminate]|].
  rewrite append_assoc, (digit_len_append c _ n Hl). discriminate.
Qed.

(** [take_digits nd] takes a run of digits and stops where no digit follows. *)
Lemma take_digits_fuel_run (fuel : nat) (s : string) :
  String.length s <= fuel ->
  Run nd (take_digits_fuel nd fuel s)
  /\ exists b, s = take_digits_fuel nd fuel s +++ b /\ digit_len nd b = 0.
Proof.
  revert s. induction fuel as [|fuel IH]; intros s Hlen; cbn [take_digits_fuel].
  - destruct s; [|cbn in Hlen; lia].
    split; [constructor | now exists ""].
  - destruct (digit_len nd s) as [|n] eqn:E.
    + split; [constructor | now exists s].
    + pose proof (digit_len_le s) as Hle. rewrite E in Hle.
      destruct (digit_len_alone s n E) as [Hne Hone].
      destruct (IH (drop (S n) s)) as (Hrun & b & Hb & Hstop).
      { rewrite length_drop. lia. }
      split; [now constructor|].
      exists b. split; [|exact Hstop].
      rewrite append_assoc, <- Hb. symmetry. apply take_drop.
Qed.

Lemma take_digits_fuel_of_run (d b : string) (fuel : nat) :
  Run nd d -> digit_len nd b = 0 -> String.length (d +++ b) <= fuel ->
  take_digits_fuel nd fuel (d +++ b) = d.
Proof.
  intros Hrun Hb. revert fuel.
  induction Hrun as [|c d Hne Hc _ IH]; intros fuel Hlen.
  - cbn [append]. destruct fuel; cbn [take_digits_fuel]; [reflexivity|].
    now rewrite Hb.
  - destruct (String.length c) as [|n] eqn:El; [destruct c; [contradiction | discriminate]|].
    rewrite append_assoc in *. rewrite length_append, El in Hlen.
    destruct fuel as [|fuel]; [lia|]. cbn [take_digits_fuel].
    rewrite (digit_len_append c _ n Hc).
    rewrite <- El, take_length_append, drop_length_append.
    rewrite IH by lia. reflexivity.
Qed.

Lemma take_digits_nil (b : string) : take_digits nd b = "" -> digit_len nd b = 0.
Proof.
  unfold take_digits. destruct b as [|c b]; [reflexivity|].
  cbn [String.length take_digits_fuel].
  destruct (digit_len nd (String c b)) as [|n]; [reflexivity|]. discriminate.
Qed.

Lemma match_gid_some (s d : string) :
  match_gid nd s = Some d ->
  exists b, s = "gid=" +++ d +++ b /\ tab_id nd d /\ digit_len nd b = 0.
Proof.
  unfold match_gid.
  destruct (String.prefix "gid=" s) eqn:P; [|discriminate].
  apply prefix_append in P. change (String.length "gid=") with 4 in P.
  destruct (take_digits_fuel_run (String.length (drop 4 s)) (drop 4 s) (le_n _))
    as (Hrun & b & Hb & Hstop).
  fold (take_digits nd (drop 4 s)) in Hrun, Hb.
  destruct (take_digits nd (drop 4 s)) as [|c d'] eqn:E; [discriminate|].
  intros [= <-]. exists b. split; [now rewrite <- Hb|].
  split; [split; [discriminate | exact Hrun] | exact Hstop].
Qed.

Lemma match_gid_none (b : string) :
  match_gid nd ("gid=" +++ b) = None -> digit_len nd b = 0.
Proof.
  unfold match_gid. rewrite prefix_of_append.
  change (drop 4 ("gid=" +++ b)) with b.
  destruct (take_digits nd b) eqn:E; [intros _; now apply take_digits_nil | discriminate].
Qed.

Lemma match_gid_of_run (d b : string) :
  tab_id nd d -> digit_len nd b = 0 -> match_gid nd ("gid=" +++ d +++ b) = Some d.
Proof.
  intros [Hne Hrun] Hb. unfold match_gid. rewrite prefix_of_append.
  change (drop 4 ("gid=" +++ d +++ b)) with (d +++ b).
  unfold take_digits. rewrite (take_digits_fuel_of_run d b _ Hrun Hb (le_n _)).
  destruct d; [contradiction | reflexivity].
Qed.

Lemma findall_gid_skip (x t : string) :
  findall_gid_from nd (String.length x) (x +++ t) = findall_gid_from nd 0 t.
Proof. induction x as [|c x IH]; cbn; [reflexivity | exact IH]. Qed.

Lemma no_occurrence_tail (c : ascii) (s : string) :
  no_occurrence nd (String c s) -> no_occurrence nd s.
Proof. intros H a b ->. apply (H (String c a) b). reflexivity. Qed.

Lemma no_occurrence_nil : no_occurrence nd "".
Proof. intros [|c a] b H; discriminate H. Qed.

Lemma no_occurrence_match (s : string) : no_occurrence nd s -> match_gid nd s = None.
Proof.
  intros H. destruct (match_gid nd s) as [d|] eqn:E; [|reflexivity].
  apply match_gid_some in E as (b & -> & Hd & _).
  exfalso. apply (Run_digit_len d b Hd). apply (H "" (d +++ b)). reflexivity.
Qed.

Lemma findall_gid_no_occurrence (s : string) :
  no_occurrence nd s -> findall_gid_from nd 0 s = [].
Proof.
  induction s as [|c s IH]; intros H; [reflexivity|].
  cbn [findall_gid_from]. rewrite (no_occurrence_match _ H).
  apply IH. now apply no_occurrence_tail in H.
Qed.

(** A [gid=] that begins in [x] and is found in [x +++ "g"...] lies in [x]. *)
Lemma gid_before_g (x t y : string) :
  x <> "" -> x +++ String "g" t = "gid=" +++ y ->
  exists x2, x = "gid=" +++ x2 /\ y = x2 +++ String "g" t.
Proof.
  intros Hne H.
  destruct x as [|c1 [|c2 [|c3 [|c4 x2]]]]; cbn in H; try contradiction;
    try (injection H as; discriminate).
  injection H as -> -> -> -> <-. now exists x2.
Qed.

Lemma findall_gid_before_g (a t : string) :
  no_occurrence nd a ->
  findall_gid_from nd 0 (a +++ String "g" t) = findall_gid_from nd 0 (String "g" t).
Proof.
  induction a as [|c a IH]; intros H; [reflexivity|].
  change (String c a +++ String "g" t) with (String c (a +++ String "g" t)).
  cbn [findall_gid_from].
  assert (Hm : match_gid nd (String c (a +++ String "g" t)) = None).
  { destruct (match_gid nd (String c (a +++ String "g" t))) as [d|] eqn:E; [|reflexivity].
    apply match_gid_some in E as (b & Hs & Hd & _). exfalso.
    destruct (gid_before_g (String c a) t (d +++ b)) as (x2 & Hx & Hy);
      [discriminate | exact Hs |].
    pose proof (Run_digit_len d b Hd) as Hpos. rewrite Hy in Hpos.
    destruct (digit_len nd (x2 +++ String "g" t)) as [|n] eqn:E2; [contradiction|].
    apply digit_len_before_g in E2.
    rewrite (H "" x2 Hx) in E2. discriminate. }
  rewrite Hm. apply IH. now apply no_occurrence_tail in H.
Qed.

(** The scan finds the occurrences, and nothing else does. *)
Lemma Occurrences_findall (s : string) (found : list string) :
  Occurrences nd s found -> re_findall_gid nd s = found.
Proof.
  unfold re_findall_gid.
  induction 1 as [s H | a d b found Ha Hd Hb _ IH].
  - now apply findall_gid_no_occurrence.
  - change ("gid=" +++ d +++ b) with (String "g" ("id=" +++ d +++ b)).
    rewrite (findall_gid_before_g a _ Ha).
    cbn [findall_gid_from].
    change (String "g" ("id=" +++ d +++ b)) with ("gid=" +++ d +++ b).
    rewrite (match_gid_of_run d b Hd Hb). f_equal.
    rewrite <- IH.
    change (3 + String.length d) with (String.length "id=" + String.length d).
    rewrite <- length_append.
    rewrite <- (findall_gid_skip ("id=" +++ d) b). now rewrite append_assoc.
Qed.

Lemma first_occurrence (s : string) :
  no_occurrence nd s
  \/ exists a d b,
       s = a +++ "gid=" +++ d +++ b
       /\ no_occurrence nd a /\ tab_id nd d /\ digit_len nd b = 0.
Proof.
  induction s as [|c s IH]; [left; apply no_occurrence_nil|].
  destruct (match_gid nd (String c s)) as [d|] eqn:E.
  - apply match_gid_some in E as (b & Hs & Hd & Hb).
    right. exists "", d, b.
    split; [exact Hs|]. split; [apply no_occurrence_nil|]. now split.
  - destruct IH as [Hnone | (a & d & b & -> & Ha & Hd & Hb)].
    + left. intros [|c0 a0] b0 Hs.
      * cbn in Hs. rewrite Hs in E. now apply match_gid_none in E.
      * injection Hs as _ Hs. now apply (Hnone a0 b0).
    + right. exists (String c a), d, b.
      split; [reflexivity|]. split; [|now split].
      intros [|c0 a0] b0 Hs.
      * cbn in Hs. injection Hs as -> ->.
        change (match_gid nd ("gid=" +++ (b0 +++ "gid=" +++ d +++ b)) = None) in E.
        apply match_gid_none in E.
        destruct (digit_len nd b0) as [|n] eqn:E0; [reflexivity|].
        rewrite (digit_len_append b0 _ n E0) in E. discriminate.
      * injection Hs as _ Hs. now apply (Ha a0 b0).
Qed.

Lemma Occurrences_exist (n : nat) (s : string) :
  String.length s < n -> exists found, Occurrences nd s found.
Proof.
  revert s. induction n as [|n IH]; intros s Hlen; [lia|].
  destruct (first_occurrence s) as [Hnone | (a & d & b & -> & Ha & Hd & Hb)].
  - exists []. now constructor.
  - destruct (IH b) as (found & Hfound).
    { rewrite !length_append in Hlen. cbn in Hlen. lia. }
    exists (d :: found). now constructor.
Qed.

Lemma findall_Occurrences (s : string) : Occurrences nd s (re_findall_gid nd s).
Proof.
  destruct (Occurrences_exist (S (String.length s)) s (Nat.lt_succ_diag_r _))
    as (found & H).
  now rewrite (Occurrences_findall s found H).
Qed.

Lemma findall_gid_tab_id (s : string) (d : string) :
  In d (re_findall_gid nd s) -> tab_id nd d.
Proof.
  pose proof (findall_Occurrences s) as H.
  induction H as [s _ | a d0 b found _ Hd _ _ IH]; [intros [] |].
  intros [<- | Hin]; [exact Hd | now apply IH].
Qed.


Lemma no_occurrence_findall (s : string) : re_findall_gid nd s = [] -> no_occurrence nd s.
Proof.
  intros E. pose proof (findall_Occurrences s) as H. rewrite E in H.
  inversion H. assumption.
Qed.

Lemma digit_len_0_before_g (q t : string) :
  digit_len nd q = 0 -> digit_len nd (q +++ String "g" t) = 0.
Proof.
  intros H. destruct (digit_len nd (q +++ String "g" t)) as [|n] eqn:E; [reflexivity|].
  apply digit_len_before_g in E. congruence.
Qed.

Lemma tab_id_7 : tab_id nd "7".
Proof.
  split; [discriminate|].
  apply (Run_cons nd "7" ""); [discriminate | reflexivity | constructor].
Qed.

Lemma tab_id_3 : tab_id nd "3".
Proof.
  split; [discriminate|].
  apply (Run_cons nd "3" ""); [discriminate | reflexivity | constructor].
Qed.

(** A text that mentions tab 7, tab 3 and tab 7 again, and no other. *)
Lemma occurrences_7_3_7 (p q s t : string) :
  no_occurrence nd p -> no_occurrence nd q -> no_occurrence nd s -> no_occurrence nd t ->
  digit_len nd q = 0 -> digit_len nd s = 0 -> digit_len nd t = 0 ->
  Occurrences nd (p +++ "gid=7" +++ q +++ "gid=3" +++ s +++ "gid=7" +++ t) ["7"; "3"; "7"].
Proof.
  intros Hp Hq Hs Ht Dq Ds Dt.
  apply (Occurrences_first nd p "7" (q +++ "gid=3" +++ s +++ "gid=7" +++ t) ["3"; "7"]);
    [exact Hp | apply tab_id_7 | now apply digit_len_0_before_g |].
  apply (Occurrences_first nd q "3" (s +++ "gid=7" +++ t) ["7"]);
    [exact Hq | apply tab_id_3 | now apply digit_len_0_before_g |].
  apply (Occurrences_first nd s "7" t []);
    [exact Hs | apply tab_id_7 | exact Dt |].
  now constructor.
Qed.

End Digits.

(** ** What fetching and logging leave in place *)

Lemma grows_refl (st : State) : grows st st.
Proof. split; exists []; now rewrite app_nil_r. Qed.

Lemma grows_trans (a b c : State) : grows a b -> grows b c -> grows a c.
Proof.
  intros [[r1 R1] [l1 L1]] [[r2 R2] [l2 L2]]. split.
  - exists (r1 ++ r2). now rewrite R2, R1, app_assoc.
  - exists (l1 ++ l2). now rewrite L2, L1, app_assoc.
Qed.

Lemma grows_add_log (r : LogRecord) (st : State) : grows st (add_log r st).
Proof. split; [exists []; cbn; now rewrite app_nil_r | now exists [r]]. Qed.

Lemma grows_add_request (url : string) (st : State) : grows st (add_request url st).
Proof. split; [now exists [url] | exists []; cbn; now rewrite app_nil_r]. Qed.

#[export] Instance grows_bookkeeping : Bookkeeping grows.
Proof.
  constructor;
    [exact grows_refl | exact grows_trans | exact grows_add_log | exact grows_add_request].
Qed.

#[export] Instance same_zip_bookkeeping : Bookkeeping same_zip.
Proof.
  constructor; unfold same_zip; [reflexivity | congruence | reflexivity | reflexivity].
Qed.

Lemma grows_logs_In (st st' : State) (r : LogRecord) :
  grows st st' -> In r (logs st) -> In r (logs st').
Proof. intros [_ [l ->]] H. apply in_app_iff. now left. Qed.

Lemma grows_requests_In (st st' : State) (url : string) :
  grows st st' -> In url (requests st) -> In url (requests st').
Proof. intros [[l ->] _] H. apply in_app_iff. now left. Qed.

Section Respects.

Context {R : State -> State -> Prop} `{Bookkeeping R}.

Lemma respects_ret {A} (a : A) : respects R (ret a).
Proof. intros st. apply bk_refl. Qed.

Lemma respects_raise {A} (e : PyExc) : respects R (@raise A e).
Proof. intros st. apply bk_refl. Qed.

Lemma respects_lift {A} (r : Result A) : respects R (lift r).
Proof. intros st. apply bk_refl. Qed.

Lemma respects_bind {A B} (m : M A) (k : A -> M B) :
  respects R m -> (forall a, respects R (k a)) -> respects R (bind m k).
Proof.
  intros Hm Hk st. unfold bind. specialize (Hm st).
  destruct (m st) as [[a|e] st1]; cbn in *; [|assumption].
  eapply bk_trans; [eassumption | apply Hk].
Qed.

Lemma respects_try_except {A} (body : M A) (handler : PyExc -> M A) :
  respects R body -> (forall e, respects R (handler e)) ->
  respects R (try_except body handler).
Proof.
  intros Hb Hh st. unfold try_except. specialize (Hb st).
  destruct (body st) as [[a|e] st1]; cbn in *; [assumption|].
  eapply bk_trans; [eassumption | apply Hh].
Qed.

Lemma respects_logging_info (msg : string) : respects R (logging_info msg).
Proof. intros st. apply bk_log. Qed.

Lemma respects_logging_error (msg : string) : respects R (logging_error msg).
Proof. intros st. apply bk_log. Qed.

Lemma respects_logging_exception (msg : string) : respects R (logging_exception msg).
Proof. intros st. apply bk_log. Qed.

Lemma respects_attr {A B} (o : option A) (f : A -> B) : respects R (attr o f).
Proof. destruct o; [apply respects_ret | apply respects_raise]. Qed.

Lemma respects_for_each {A} (l : list A) (body : A -> M unit) :
  (forall a, respects R (body a)) -> respects R (for_each l body).
Proof.
  intros Hb. induction l as [|x l IH]; cbn [for_each].
  - apply respects_ret.
  - apply respects_bind; [apply Hb | intros _; apply IH].
Qed.

End Respects.

Lemma grows_writestr (zip_refusal : string -> option PyExc) (name : string) (data : bytes) :
  respects grows (writestr zip_refusal name data).
Proof.
  intros st. unfold writestr.
  destruct (zip_refusal (until_nul name)); split; exists []; cbn; now rewrite app_nil_r.
Qed.

Create HintDb respects.
#[export] Hint Resolve respects_ret respects_raise respects_lift respects_logging_info
  respects_logging_error respects_logging_exception respects_attr grows_writestr
  : respects.

(** Takes a monadic term apart along its binds and branches. *)
Ltac respects :=
  repeat first
    [ progress auto with respects
    | simple apply respects_bind; [|intro]
    | simple apply respects_try_except; [|intro]
    | simple apply respects_for_each; intro
    | match goal with
      | |- respects _ (if ?b then _ else _) => destruct b
      | |- respects _ (match ?x with _ => _ end) => destruct x
      end ].

Section Properties.

Variable unicode_decimal : string -> bool.
Variable http : list string -> string -> HttpOutcome.
Variable html_parser : string -> Result Node.
Variable prettify : Node -> string.
Variable html_to_docx : string -> Result bytes.
Variable zip_refusal : string -> option PyExc.

(** ** The fetcher *)

Lemma fetch_url_eq (url : string) (st : State) :
  fetch_url http url st =
  match http (requests st) url with
  | Responded r =>
      (Ok (if (status_code r =? 200)%Z then Some r else None), add_request url st)
  | RequestRaised =>
      (Ok None, add_log (LogException ("Failed to fetch: " +++ url)) (add_request url st))
  end.
Proof.
  unfold fetch_url, try_except, bind, requests_get.
  destruct (http (requests st) url); reflexivity.
Qed.

Lemma status_200_truthy (r : Response) :
  (status_code r =? 200)%Z = true -> response_ok r = true.
Proof.
  intros H. apply Z.eqb_eq in H. unfold response_ok. rewrite H. reflexivity.
Qed.

(** What [fetch_url] hands back is falsy only when it is [None]. *)
Lemma fetched_truthy (r : Response) :
  truthy_response (if (status_code r =? 200)%Z then Some r else None)
  = (status_code r =? 200)%Z.
Proof.
  destruct (status_code r =? 200)%Z eqn:E; simpl; [now apply status_200_truthy | reflexivity].
Qed.

(** C7. [fetch_url] issues one GET and always returns normally: the result is
    the response exactly when the request answered with status 200, and
    [None] for every other status and for a request that raised (which is
    logged); no exception reaches the caller. *)
Theorem fetch_url_present_iff_200 (url : string) (st : State) :
  exists (r : option Response) (st' : State),
    fetch_url http url st = (Ok r, st')
    /\ requests st' = requests st ++ [url]
    /\ (forall resp, r = Some resp <->
          http (requests st) url = Responded resp /\ status_code resp = 200%Z)
    /\ (http (requests st) url = RequestRaised ->
          r = None /\ logs st' = logs st ++ [LogException ("Failed to fetch: " +++ url)])
    /\ (forall resp, http (requests st) url = Responded resp ->
          status_code resp <> 200%Z -> r = None).
Proof.
  rewrite fetch_url_eq.
  destruct (http (requests st) url) as [resp0|] eqn:E.
  - eexists; eexists; split; [reflexivity|].
    split; [reflexivity|].
    split; [|split].
    + intros resp. destruct (status_code resp0 =? 200)%Z eqn:S200.
      * apply Z.eqb_eq in S200. split.
        -- intros [= <-]. now split.
        -- intros [[= <-] _]. reflexivity.
      * apply Z.eqb_neq in S200. split.
        -- discriminate.
        -- intros [[= <-] Hs]. contradiction.
    + discriminate.
    + intros resp [= <-] Hne.
      apply Z.eqb_neq in Hne. now rewrite Hne.
  - eexists; eexists; split; [reflexivity|].
    split; [reflexivity|].
    split; [|split].
    + intros resp; split; [discriminate | intros [H _]; discriminate].
    + intros _. split; reflexivity.
    + discriminate.
Qed.

(** ** Exporting one tab *)

Lemma create_sheet_step (url : string) (rest : list string) (st : State) :
  create_sheet_loop http (url :: rest) st =
  match csv_body (http (requests st) url) with
  | Some b => (Ok (Some b), add_request url st)
  | None =>
      create_sheet_loop http rest
        (match http (requests st) url with
         | Responded _ => add_request url st
         | RequestRaised =>
             add_log (LogException ("Failed to fetch: " +++ url)) (add_request url st)
         end)
  end.
Proof.
  cbn [create_sheet_loop]. unfold bind. rewrite fetch_url_eq.
  destruct (http (requests st) url) as [r|]; cbn [csv_body]; [|reflexivity].
  rewrite fetched_truthy.
  destruct (status_code r =? 200)%Z; cbn [negb andb]; [|reflexivity].
  destruct (nonempty (content r) && negb (String.prefix "<!DOCTYPE" (content r)));
    reflexivity.
Qed.


Lemma create_sheet_run (spreadsheet_id sheet_id : string) (st : State) :
  let direct := export_url spreadsheet_id sheet_id in
  let query := gviz_url spreadsheet_id sheet_id in
  let first := http (requests st) direct in
  let second := http (requests st ++ [direct]) query in
  exists st' : State,
    create_sheet http spreadsheet_id sheet_id st =
      (Ok (match csv_body first with
           | Some b => Some b
           | None => csv_body second
           end), st')
    /\ requests st' =
         requests st ++ (match csv_body first with
                         | Some _ => [direct]
                         | None => [direct; query]
                         end).
Proof.
  intros direct query first second.
  unfold create_sheet. fold direct query.
  rewrite create_sheet_step. fold first.
  destruct (csv_body first) as [b|] eqn:E1.
  - eexists; split; reflexivity.
  - match goal with
    | |- context [create_sheet_loop http _ ?s] => set (st1 := s)
    end.
    assert (Hreq : requests st1 = requests st ++ [direct])
      by (subst st1; destruct (http (requests st) direct); reflexivity).
    rewrite create_sheet_step, Hreq. fold second.
    destruct (csv_body second) as [b|] eqn:E2.
    + eexists; split; [reflexivity|].
      cbn. rewrite Hreq, <- app_assoc. reflexivity.
    + cbn [create_sheet_loop]. unfold ret.
      eexists; split; [reflexivity|].
      destruct second; cbn; rewrite Hreq, <- app_assoc; reflexivity.
Qed.


(** ** Listing the tabs *)

Lemma get_sheet_ids_eq (spreadsheet_id : string) (st : State) :
  let url := htmlview_url spreadsheet_id in
  get_sheet_ids unicode_decimal http spreadsheet_id st =
  match http (requests st) url with
  | Responded r =>
      (Ok (match fetched (Responded r) with
           | Some _ =>
               match re_findall_gid unicode_decimal (text r) with
               | [] => ["0"]
               | found => dict_fromkeys found
               end
           | None => ["0"]
           end), add_request url st)
  | RequestRaised =>
      (Ok ["0"], add_log (LogException ("Failed to fetch: " +++ url)) (add_request url st))
  end.
Proof.
  intros url. unfold get_sheet_ids, bind. fold url. rewrite fetch_url_eq.
  destruct (http (requests st) url) as [r|]; [|reflexivity].
  rewrite fetched_truthy. cbn [fetched].
  destruct (status_code r =? 200)%Z; cbn [negb]; [|reflexivity].
  destruct (re_findall_gid unicode_decimal (text r)); reflexivity.
Qed.

Lemma get_sheet_ids_returns (spreadsheet_id : string) (st : State) :
  exists tabs st', get_sheet_ids unicode_decimal http spreadsheet_id st = (Ok tabs, st').
Proof.
  rewrite get_sheet_ids_eq. cbn zeta.
  destruct (http (requests st) (htmlview_url spreadsheet_id)); eauto.
Qed.

(** C5. [get_sheet_ids] always returns a list: [["0"]] when the preview page
    was not fetched; otherwise the digits of the occurrences of [gid=<digits>]
    in the page text, taken from left to right, each with all the decimal
    digits that follow it (the list [found], which the text determines),
    without repetitions and in the order of their first appearance, and
    [["0"]] when there is no occurrence.  When the text is made of [gid=7],
    [gid=3] and [gid=7] again, with pieces around them that hold no
    occurrence and do not begin with a digit, the result is [["7"; "3"]]. *)
Theorem get_sheet_ids_first_seen (spreadsheet_id : string) (st : State) :
  let preview := fetched (http (requests st) (htmlview_url spreadsheet_id)) in
  exists (tabs : list string) (st' : State),
    get_sheet_ids unicode_decimal http spreadsheet_id st = (Ok tabs, st')
    /\ (preview = None -> tabs = ["0"])
    /\ (forall r, preview = Some r ->
         exists found : list string,
           Occurrences unicode_decimal (text r) found
           /\ (forall l, Occurrences unicode_decimal (text r) l -> l = found)
           /\ (found = [] -> tabs = ["0"])
           /\ (found <> [] ->
                 NoDup tabs
                 /\ (forall k, In k tabs <-> In k found)
                 /\ (forall x y, In x found -> In y found ->
                       (index x tabs < index y tabs <-> index x found < index y found)))
           /\ (forall p q s t,
                 text r = p +++ "gid=7" +++ q +++ "gid=3" +++ s +++ "gid=7" +++ t ->
                 no_occurrence unicode_decimal p ->
                 no_occurrence unicode_decimal q ->
                 no_occurrence unicode_decimal s ->
                 no_occurrence unicode_decimal t ->
                 digit_len unicode_decimal q = 0 ->
                 digit_len unicode_decimal s = 0 ->
                 digit_len unicode_decimal t = 0 ->
                 tabs = ["7"; "3"])).
Proof.
  intros preview. subst preview. rewrite get_sheet_ids_eq.
  destruct (http (requests st) (htmlview_url spreadsheet_id)) as [r0|].
  - eexists; eexists; split; [reflexivity|].
    destruct (fetched (Responded r0)) as [r1|] eqn:F.
    + assert (r1 = r0) as ->.
      { cbn in F. destruct (status_code r0 =? 200)%Z; congruence. }
      split; [discriminate|]. intros r [= <-].
      exists (re_findall_gid unicode_decimal (text r0)).
      split; [apply findall_Occurrences|].
      split; [intros l Hl; symmetry; now apply Occurrences_findall|].
      split; [intros E; now rewrite E|].
      split.
      * intros Hne.
        destruct (re_findall_gid unicode_decimal (text r0)) as [|m ms]; [contradiction|].
        split; [apply dict_fromkeys_NoDup|].
        split; [intros k; apply dict_fromkeys_In|].
        intros x y. apply dict_fromkeys_order.
      * intros p q s t Htext Hp Hq Hs Ht Dq Ds Dt.
        rewrite Htext.
        now rewrite (Occurrences_findall unicode_decimal _ _
                       (occurrences_7_3_7 unicode_decimal p q s t Hp Hq Hs Ht Dq Ds Dt)).
    + split; [reflexivity|]. discriminate.
  - eexists; eexists; split; [reflexivity|].
    split; [reflexivity|]. discriminate.
Qed.

(** ** Titles *)

(** The tree [fetch_html] hands back for a fetched page, or the exception
    with which the tree builder rejects its markup. *)
Lemma fetch_html_run (url : string) (st : State) :
  fetch_html http html_parser url st =
  (match fetched (http (requests st) url) with
   | None => Ok None
   | Some r =>
       match html_parser (text r) with
       | Ok soup => Ok (Some soup)
       | Raise e => Raise e
       end
   end, after_fetch http url st).
Proof.
  unfold fetch_html, bind, after_fetch. rewrite fetch_url_eq.
  destruct (http (requests st) url) as [r|]; [|reflexivity].
  rewrite fetched_truthy. cbn [fetched].
  destruct (status_code r =? 200)%Z; cbn [negb]; [|reflexivity].
  unfold lift, ret. destruct (html_parser (text r)); reflexivity.
Qed.

Lemma get_spreadsheet_title_eq (spreadsheet_id : string) (st : State) :
  let url := htmlview_url spreadsheet_id in
  get_spreadsheet_title http html_parser spreadsheet_id st =
  (match fetched (http (requests st) url) with
   | None => Ok ("spreadsheet_" +++ spreadsheet_id)
   | Some r =>
       match html_parser (text r) with
       | Raise e => Raise e
       | Ok soup =>
           match soup_title soup with
           | None => Ok ("spreadsheet_" +++ spreadsheet_id)
           | Some title_tag =>
               match tag_string title_tag with
               | Some title => Ok (re_sub_seps title)
               | None => Raise TypeError
               end
           end
       end
   end, after_fetch http url st).
Proof.
  intros url. unfold get_spreadsheet_title, bind. fold url. rewrite fetch_html_run.
  destruct (fetched (http (requests st) url)) as [r|]; [|reflexivity].
  destruct (html_parser (text r)) as [soup|e]; [|reflexivity].
  destruct (soup_title soup) as [t|]; [|reflexivity].
  destruct (tag_string t); reflexivity.
Qed.

(** C6 (where the code departs from it). When the preview page is fetched and
    its title element has no string ([tag.string] is [None]: an empty title,
    or one with several children), [get_spreadsheet_title] raises
    [TypeError] instead of returning a name. *)
Theorem get_spreadsheet_title_raises_on_empty_title
    (spreadsheet_id : string) (st : State) (r : Response) (soup title_tag : Node) :
  fetched (http (requests st) (htmlview_url spreadsheet_id)) = Some r ->
  html_parser (text r) = Ok soup ->
  soup_title soup = Some title_tag ->
  tag_string title_tag = None ->
  exists st' : State,
    get_spreadsheet_title http html_parser spreadsheet_id st = (Raise TypeError, st').
Proof.
  intros Hfetch Hsoup Htitle Hstring.
  rewrite get_spreadsheet_title_eq. cbn zeta.
  rewrite Hfetch, Hsoup, Htitle, Hstring. eexists. reflexivity.
Qed.

(** Where C6 holds: the fallback name when the page is not fetched or has no
    title element, and the title with its runs of separators replaced when
    the title element has a string. *)
Lemma get_spreadsheet_title_returns (spreadsheet_id : string) (st : State) :
  let preview := fetched (http (requests st) (htmlview_url spreadsheet_id)) in
  exists st' : State,
    (preview = None ->
       get_spreadsheet_title http html_parser spreadsheet_id st
       = (Ok ("spreadsheet_" +++ spreadsheet_id), st'))
    /\ (forall r soup, preview = Some r -> html_parser (text r) = Ok soup ->
          soup_title soup = None ->
          get_spreadsheet_title http html_parser spreadsheet_id st
          = (Ok ("spreadsheet_" +++ spreadsheet_id), st'))
    /\ (forall r soup title_tag title, preview = Some r ->
          html_parser (text r) = Ok soup ->
          soup_title soup = Some title_tag ->
          tag_string title_tag = Some title ->
          get_spreadsheet_title http html_parser spreadsheet_id st
          = (Ok (re_sub_seps title), st'))
    /\ (forall r e, preview = Some r -> html_parser (text r) = Raise e ->
          get_spreadsheet_title http html_parser spreadsheet_id st = (Raise e, st')).
Proof.
  intros preview. subst preview. rewrite get_spreadsheet_title_eq. cbn zeta.
  eexists. split; [|split; [|split]].
  - intros ->. reflexivity.
  - intros r soup -> -> ->. reflexivity.
  - intros r soup t title -> -> -> ->. reflexivity.
  - intros r e -> ->. reflexivity.
Qed.

(** ** Resolving a spreadsheet *)

Section Fetching.

Context {R : State -> State -> Prop} `{Bookkeeping R}.

Lemma respects_requests_get (url : string) : respects R (requests_get http url).
Proof.
  intros st. unfold requests_get.
  destruct (http (requests st) url); apply bk_request.
Qed.

#[local] Hint Resolve respects_requests_get : respects.

Lemma respects_fetch_url (url : string) : respects R (fetch_url http url).
Proof. unfold fetch_url. respects. Qed.

#[local] Hint Resolve respects_fetch_url : respects.

Lemma respects_fetch_html (url : string) : respects R (fetch_html http html_parser url).
Proof. unfold fetch_html. respects. Qed.

#[local] Hint Resolve respects_fetch_html : respects.

Lemma respects_get_sheet_ids (spreadsheet_id : string) :
  respects R (get_sheet_ids unicode_decimal http spreadsheet_id).
Proof. unfold get_sheet_ids. respects. Qed.

Lemma respects_get_spreadsheet_title (spreadsheet_id : string) :
  respects R (get_spreadsheet_title http html_parser spreadsheet_id).
Proof. unfold get_spreadsheet_title. respects. Qed.

Lemma respects_create_sheet_loop (urls : list string) :
  respects R (create_sheet_loop http urls).
Proof.
  induction urls as [|url rest IH]; cbn [create_sheet_loop]; respects.
Qed.

Lemma respects_create_sheet (spreadsheet_id sheet_id : string) :
  respects R (create_sheet http spreadsheet_id sheet_id).
Proof. apply respects_create_sheet_loop. Qed.

#[local] Hint Resolve respects_create_sheet respects_get_sheet_ids : respects.

Lemma respects_create_spreadsheet_loop (spreadsheet_id : string) (tabs : list string)
    (files : list (string * bytes)) :
  respects R (create_spreadsheet_loop http spreadsheet_id tabs files).
Proof.
  revert files. induction tabs as [|tab rest IH]; intros files;
    cbn [create_spreadsheet_loop]; respects.
Qed.

#[local] Hint Resolve respects_create_spreadsheet_loop : respects.

Lemma respects_create_spreadsheet (spreadsheet_id : string) :
  respects R (create_spreadsheet unicode_decimal http spreadsheet_id).
Proof. unfold create_spreadsheet. respects. Qed.

Lemma respects_create_document (doc_id : string) :
  respects R (create_document http html_parser prettify html_to_docx doc_id).
Proof. unfold create_document. respects. Qed.

End Fetching.

Lemma create_sheet_returns (spreadsheet_id sheet_id : string) (st : State) :
  exists body st', create_sheet http spreadsheet_id sheet_id st = (Ok body, st').
Proof.
  destruct (create_sheet_run spreadsheet_id sheet_id st) as (st' & H & _).
  eauto.
Qed.

Lemma tab_outcomes_tabs (spreadsheet_id : string) (tabs : list string) (st : State) :
  map fst (fst (tab_outcomes http spreadsheet_id tabs st)) = tabs.
Proof.
  revert st. induction tabs as [|tab rest IH]; intros st; cbn [tab_outcomes]; [reflexivity|].
  destruct (create_sheet http spreadsheet_id tab st) as [r st1].
  match goal with
  | |- context [tab_outcomes http spreadsheet_id rest ?s] =>
      specialize (IH s); destruct (tab_outcomes http spreadsheet_id rest s)
  end.
  cbn in *. now rewrite IH.
Qed.

Lemma tab_outcomes_grows (spreadsheet_id : string) (tabs : list string) (st : State) :
  grows st (snd (tab_outcomes http spreadsheet_id tabs st)).
Proof.
  revert st. induction tabs as [|tab rest IH]; intros st; cbn [tab_outcomes].
  - apply grows_refl.
  - pose proof (respects_create_sheet (R := grows) spreadsheet_id tab st) as G1.
    destruct (create_sheet http spreadsheet_id tab st) as [r st1].
    match goal with
    | |- context [tab_outcomes http spreadsheet_id rest ?s] =>
        specialize (IH s); destruct (tab_outcomes http spreadsheet_id rest s)
    end.
    cbn in *. eapply grows_trans; [exact G1|].
    eapply grows_trans; [apply grows_add_log | exact IH].
Qed.

Lemma tab_outcomes_failures_logged (spreadsheet_id : string) (tabs : list string)
    (st : State) (tab : string) :
  In (tab, None) (fst (tab_outcomes http spreadsheet_id tabs st)) ->
  In (LogError ("Failed to fetch sheet " +++ tab +++ " for " +++ spreadsheet_id))
     (logs (snd (tab_outcomes http spreadsheet_id tabs st))).
Proof.
  revert st. induction tabs as [|t rest IH]; intros st; cbn [tab_outcomes]; [intros []|].
  destruct (create_sheet http spreadsheet_id t st) as [r st1].
  match goal with
  | |- context [tab_outcomes http spreadsheet_id rest ?s] =>
      specialize (IH s); pose proof (tab_outcomes_grows spreadsheet_id rest s) as G;
      destruct (tab_outcomes http spreadsheet_id rest s) as [os st2]
  end.
  cbn in *. intros [[= <- Hbody] | Hin]; [|now apply IH].
  rewrite Hbody in G. eapply grows_logs_In; [exact G|].
  cbn. apply in_app_iff. right. now left.
Qed.

Lemma create_spreadsheet_loop_eq (spreadsheet_id : string) (tabs : list string)
    (files : list (string * bytes)) (st : State) :
  create_spreadsheet_loop http spreadsheet_id tabs files st =
  (Ok (files ++ csv_files (fst (tab_outcomes http spreadsheet_id tabs st))),
   snd (tab_outcomes http spreadsheet_id tabs st)).
Proof.
  revert files st. induction tabs as [|tab rest IH]; intros files st.
  - cbn. now rewrite app_nil_r.
  - cbn [create_spreadsheet_loop tab_outcomes]. unfold bind at 1.
    destruct (create_sheet_returns spreadsheet_id tab st) as (body & st1 & ->).
    destruct body as [b|].
    + unfold bind, logging_info. rewrite IH.
      destruct (tab_outcomes http spreadsheet_id rest _) as [os st2].
      cbn. now rewrite <- app_assoc.
    + unfold bind, logging_error. rewrite IH.
      destruct (tab_outcomes http spreadsheet_id rest _) as [os st2].
      reflexivity.
Qed.

Lemma csv_files_nil (os : list (string * option bytes)) :
  csv_files os = [] <-> (forall o, In o os -> snd o = None).
Proof.
  induction os as [|[tab [b|]] os IH]; cbn.
  - split; [intros _ o [] | reflexivity].
  - split; [discriminate|]. intros H. specialize (H _ (or_introl eq_refl)). discriminate.
  - rewrite IH. split.
    + intros H o [<- | Hin]; [reflexivity | now apply H].
    + intros H o Hin. apply H. now right.
Qed.

Lemma create_spreadsheet_run (spreadsheet_id : string) (st : State) :
  exists (tabs : list string) (st1 : State)
         (os : list (string * option bytes)) (st2 : State),
    get_sheet_ids unicode_decimal http spreadsheet_id st = (Ok tabs, st1)
    /\ tab_outcomes http spreadsheet_id tabs st1 = (os, st2)
    /\ map fst os = tabs
    /\ create_spreadsheet unicode_decimal http spreadsheet_id st =
         (match csv_files os with
          | [] => Raise (Exception "No sheet could be fetched")
          | files => Ok files
          end, st2).
Proof.
  destruct (get_sheet_ids_returns spreadsheet_id st) as (tabs & st1 & Hids).
  destruct (tab_outcomes http spreadsheet_id tabs st1) as [os st2] eqn:Hos.
  exists tabs, st1, os, st2.
  split; [assumption|]. split; [assumption|].
  split; [now rewrite <- (tab_outcomes_tabs spreadsheet_id tabs st1), Hos|].
  unfold create_spreadsheet, bind. rewrite Hids, create_spreadsheet_loop_eq, Hos.
  cbn. destruct (csv_files os); reflexivity.
Qed.

(** C3. [create_spreadsheet] takes the discovered tabs in order and exports
    each; an exported tab gives the file [<tab_id>.csv], a tab whose export
    fails is logged and skipped while the remaining tabs are still taken,
    and the exception "No sheet could be fetched" is raised exactly when no
    tab was exported. *)
Theorem create_spreadsheet_exports_tabs (spreadsheet_id : string) (st : State) :
  exists (tabs : list string) (st1 : State)
         (os : list (string * option bytes)) (st2 : State),
    get_sheet_ids unicode_decimal http spreadsheet_id st = (Ok tabs, st1)
    /\ tab_outcomes http spreadsheet_id tabs st1 = (os, st2)
    /\ map fst os = tabs
    /\ create_spreadsheet unicode_decimal http spreadsheet_id st =
         (match csv_files os with
          | [] => Raise (Exception "No sheet could be fetched")
          | files => Ok files
          end, st2)
    /\ (forall tab, In (tab, None) os ->
          In (LogError ("Failed to fetch sheet " +++ tab +++ " for " +++ spreadsheet_id))
             (logs st2))
    /\ ((exists e st', create_spreadsheet unicode_decimal http spreadsheet_id st = (Raise e, st'))
         <-> (forall o, In o os -> snd o = None)).
Proof.
  destruct (create_spreadsheet_run spreadsheet_id st)
    as (tabs & st1 & os & st2 & Hids & Hos & Htabs & Hrun).
  exists tabs, st1, os, st2.
  do 4 (split; [assumption|]).
  split.
  - intros tab Hin.
    pose proof (tab_outcomes_failures_logged spreadsheet_id tabs st1 tab) as H.
    rewrite Hos in H. now apply H.
  - rewrite Hrun, <- csv_files_nil. destruct (csv_files os); split.
    + reflexivity.
    + intros _. eauto.
    + intros (e & st' & [=]).
    + discriminate.
Qed.

(** ** Resolving a document *)

Lemma create_document_eq (doc_id : string) (st : State) :
  let url := mobilebasic_url doc_id in
  create_document http html_parser prettify html_to_docx doc_id st =
  (match fetched (http (requests st) url) with
   | None => Raise AttributeError
   | Some r =>
       match html_parser (text r) with
       | Raise e => Raise e
       | Ok soup =>
           match find_div_doc soup with
           | None => Raise AttributeError
           | Some outer =>
               match find_div outer with
               | None => Raise AttributeError
               | Some inner =>
                   match html_to_docx (prettify inner) with
                   | Raise e => Raise e
                   | Ok data =>
                       Ok ((match page_title soup with
                            | Some s => re_sub_seps s
                            | None => "document_" +++ doc_id
                            end) +++ ".docx", data)
                   end
               end
           end
       end
   end, after_fetch http url st).
Proof.
  intros url. unfold create_document, bind. fold url. rewrite fetch_html_run.
  destruct (fetched (http (requests st) url)) as [r|]; cbn [attr]; [|reflexivity].
  destruct (html_parser (text r)) as [soup|e]; [|reflexivity].
  unfold ret, lift. cbn [attr].
  destruct (find_div_doc soup) as [outer|]; cbn; [|reflexivity].
  destruct (find_div outer) as [inner|]; cbn; [|reflexivity].
  destruct (html_to_docx (prettify inner)) as [data|e]; [|reflexivity].
  unfold document_title, page_title.
  destruct (soup_title soup) as [t|]; [|reflexivity].
  destruct (tag_string t) as [s|]; [|reflexivity].
  destruct (nonempty s); reflexivity.
Qed.

(** C2, as the code has it. [create_document] raises exactly when the page is
    not fetched, or the tree builder rejects its markup, or the content
    container is absent, or the container holds no nested [div], or the
    converter raises; otherwise it returns the converted bytes under the file
    name made of the page title with its runs of separators replaced (of
    [document_<id>] when the page has no title string) and the extension
    [.docx]. *)
Theorem create_document_raises_iff (doc_id : string) (st : State) :
  let fetch := fetched (http (requests st) (mobilebasic_url doc_id)) in
  exists (res : Result (string * bytes)) (st' : State),
    create_document http html_parser prettify html_to_docx doc_id st = (res, st')
    /\ ((exists e, res = Raise e) <->
         fetch = None
         \/ exists r, fetch = Some r
              /\ ((exists e, html_parser (text r) = Raise e)
                  \/ exists soup, html_parser (text r) = Ok soup
                       /\ (find_div_doc soup = None
                           \/ exists outer, find_div_doc soup = Some outer
                                /\ (find_div outer = None
                                    \/ exists inner e, find_div outer = Some inner
                                         /\ html_to_docx (prettify inner) = Raise e))))
    /\ (forall filename data, res = Ok (filename, data) ->
          exists r soup outer inner,
            fetch = Some r
            /\ html_parser (text r) = Ok soup
            /\ find_div_doc soup = Some outer
            /\ find_div outer = Some inner
            /\ html_to_docx (prettify inner) = Ok data
            /\ filename =
                 (match page_title soup with
                  | Some title => re_sub_seps title
                  | None => "document_" +++ doc_id
                  end) +++ ".docx").
Proof.
  intros fetch. subst fetch. rewrite create_document_eq. cbn zeta.
  eexists; eexists; split; [reflexivity|].
  destruct (fetched (http (requests st) (mobilebasic_url doc_id))) as [r|].
  2:{ split; [split; [now left | eauto] | discriminate]. }
  destruct (html_parser (text r)) as [soup|e0] eqn:Hsoup.
  2:{ split; [split; [|eauto] | discriminate].
      intros _. right. exists r. split; [reflexivity|]. left. exists e0. exact Hsoup. }
  destruct (find_div_doc soup) as [outer|] eqn:Houter.
  2:{ split; [split; [|eauto] | discriminate].
      intros _. right. exists r. split; [reflexivity|]. right.
      exists soup. split; [exact Hsoup | now left]. }
  destruct (find_div outer) as [inner|] eqn:Hinner.
  2:{ split; [split; [|eauto] | discriminate].
      intros _. right. exists r. split; [reflexivity|]. right.
      exists soup. split; [exact Hsoup|]. right.
      exists outer. split; [assumption | now left]. }
  destruct (html_to_docx (prettify inner)) as [data|e] eqn:Hconv.
  - split.
    + split; [intros [e [=]]|].
      intros [[=] | (r' & [= <-] & [[e Hrej] | (soup' & Hs & Hrest)])]; [congruence|].
      assert (soup' = soup) as -> by congruence.
      destruct Hrest as [Hnone | (outer' & Ho & [Hnone | (inner' & e & Hi & He)])];
        congruence.
    + intros filename data' [= <- <-].
      exists r, soup, outer, inner.
      repeat (split; [assumption || reflexivity|]). reflexivity.
  - split; [split; [|eauto] | discriminate].
    intros _. right. exists r. split; [reflexivity|]. right.
    exists soup. split; [exact Hsoup|]. right.
    exists outer. split; [assumption|]. right. exists inner, e. now split.
Qed.

(** C10, as the code has it. When the page is fetched and its tree built, the
    content container is present and holds a nested [div], and the conversion
    succeeds, a page whose title element is missing or has no non-empty string
    still resolves, to [document_<id>.docx]. *)
Theorem create_document_fallback_name
    (doc_id : string) (st : State) (r : Response) (soup outer inner : Node) (data : bytes) :
  fetched (http (requests st) (mobilebasic_url doc_id)) = Some r ->
  html_parser (text r) = Ok soup ->
  find_div_doc soup = Some outer ->
  find_div outer = Some inner ->
  html_to_docx (prettify inner) = Ok data ->
  (soup_title soup = None
   \/ exists title_tag, soup_title soup = Some title_tag
        /\ (tag_string title_tag = None \/ tag_string title_tag = Some "")) ->
  exists st' : State,
    create_document http html_parser prettify html_to_docx doc_id st
    = (Ok ("document_" +++ doc_id +++ ".docx", data), st').
Proof.
  intros Hfetch Hsoup Houter Hinner Hconv Htitle.
  rewrite create_document_eq. cbn zeta.
  rewrite Hfetch, Hsoup, Houter, Hinner, Hconv.
  assert (Hpt : page_title soup = None).
  { unfold page_title.
    destruct Htitle as [-> | (t & -> & [-> | ->])]; reflexivity. }
  rewrite Hpt. eexists. reflexivity.
Qed.

(** ** Building the archive *)

#[local] Hint Resolve grows_bookkeeping same_zip_bookkeeping respects_create_document
  respects_get_spreadsheet_title respects_create_spreadsheet : respects.

Abbreviation entries :=
  (entries_of unicode_decimal http html_parser prettify html_to_docx).
Abbreviation run := (outcomes unicode_decimal http html_parser prettify html_to_docx zip_refusal).

Lemma with_zip_same (st : State) : with_zip (zip_file st ++ []) st = st.
Proof. unfold with_zip. rewrite app_nil_r. now destruct st. Qed.

Lemma fitting_all_fit (es : Archive) : all_fit zip_refusal es = true -> fitting zip_refusal es = es.
Proof.
  induction es as [|[name data] es IH]; cbn; [reflexivity|].
  destruct (writable zip_refusal name); [|discriminate]. cbn. intros H. now rewrite IH.
Qed.

Lemma write_error_all_fit (es : Archive) :
  all_fit zip_refusal es = match write_error zip_refusal es with None => true | Some _ => false end.
Proof.
  induction es as [|[name data] es IH]; cbn; [reflexivity|].
  unfold writable. destruct (zip_refusal name); [reflexivity | exact IH].
Qed.

Lemma fitting_prefix (es : Archive) : exists rest, es = fitting zip_refusal es ++ rest.
Proof.
  induction es as [|[name data] es [rest IH]]; cbn; [now exists []|].
  destruct (writable zip_refusal name); [|now eexists].
  exists rest. cbn. now rewrite <- IH.
Qed.

(** Writing the files of one id: the entries are written one after the
    other, up to the first whose name is turned down, where [writestr]
    raises. *)
Lemma write_all (name : string * bytes -> string) (files : list (string * bytes))
    (st : State) :
  let es := map (fun file => (until_nul (name file), snd file)) files in
  for_each files (fun file => writestr zip_refusal (name file) (snd file)) st =
  (match write_error zip_refusal es with None => Ok tt | Some e => Raise e end,
   with_zip (zip_file st ++ fitting zip_refusal es) st).
Proof.
  cbv zeta. revert st. induction files as [|f files IH]; intros st.
  - cbn. unfold ret. now rewrite with_zip_same.
  - cbn [for_each map fitting write_error fst]. unfold bind, writestr, writable.
    destruct (zip_refusal (until_nul (name f))).
    + now rewrite with_zip_same.
    + rewrite IH. unfold with_zip. cbn. now rewrite <- app_assoc.
Qed.

Lemma download_one_eq (doc_type : option string) (doc_id : string) (st : State) :
  download_one unicode_decimal http html_parser prettify html_to_docx zip_refusal
    doc_type doc_id st =
  match entries doc_type doc_id st with
  | (Ok es, st1) =>
      (match write_error zip_refusal es with None => Ok tt | Some e => Raise e end,
       with_zip (zip_file st1 ++ fitting zip_refusal es) st1)
  | (Raise e, st1) => (Raise e, st1)
  end.
Proof.
  unfold download_one, entries_of.
  destruct (py_eq doc_type "docx").
  - unfold bind.
    destruct (create_document http html_parser prettify html_to_docx doc_id st)
      as [[file|e] st1]; [|reflexivity].
    unfold ret. rewrite <- (write_all fst [file]).
    cbn [for_each]. unfold bind, ret.
    destruct (writestr zip_refusal (fst file) (snd file) st1) as [[[]|e] st2]; reflexivity.
  - destruct (py_eq doc_type "csv"); [|reflexivity].
    unfold bind.
    destruct (get_spreadsheet_title http html_parser doc_id st) as [[dirname|e] st1];
      [|reflexivity].
    destruct (create_spreadsheet unicode_decimal http doc_id st1) as [[files|e] st2];
      [|reflexivity].
    unfold ret. now rewrite write_all.
Qed.

Lemma download_loop_eq (doc_type : option string) (doc_ids : list string) (st : State) :
  download_loop unicode_decimal http html_parser prettify html_to_docx zip_refusal
    doc_type doc_ids st =
  (Ok tt, snd (run doc_type doc_ids st)).
Proof.
  revert st. induction doc_ids as [|doc_id rest IH]; intros st; [reflexivity|].
  unfold download_loop in *. cbn [for_each outcomes].
  unfold bind at 1. unfold try_except. rewrite download_one_eq.
  destruct (entries doc_type doc_id st) as [[es|e] st1]; cbn [kept processed].
  - rewrite write_error_all_fit. destruct (write_error zip_refusal es).
    + unfold logging_exception. rewrite IH. destruct (run doc_type rest _). reflexivity.
    + rewrite IH. destruct (run doc_type rest _). reflexivity.
  - unfold logging_exception. rewrite with_zip_same, IH.
    destruct (run doc_type rest _). reflexivity.
Qed.

Lemma entries_same_zip (doc_type : option string) (doc_id : string) :
  respects same_zip (entries doc_type doc_id).
Proof.
  unfold entries_of. respects.
Qed.

Lemma entries_grows (doc_type : option string) (doc_id : string) :
  respects grows (entries doc_type doc_id).
Proof.
  unfold entries_of. respects.
Qed.

Lemma grows_with_zip (z : Archive) (st : State) : grows st (with_zip z st).
Proof. split; exists []; cbn; now rewrite app_nil_r. Qed.

Lemma outcomes_ids (doc_type : option string) (doc_ids : list string) (st : State) :
  map fst (fst (run doc_type doc_ids st)) = doc_ids.
Proof.
  revert st. induction doc_ids as [|doc_id rest IH]; intros st; cbn [outcomes]; [reflexivity|].
  destruct (entries doc_type doc_id st) as [r st1].
  match goal with
  | |- context [run doc_type rest ?s] => specialize (IH s); destruct (run doc_type rest s)
  end.
  cbn in *. now rewrite IH.
Qed.

Lemma outcomes_grows (doc_type : option string) (doc_ids : list string) (st : State) :
  grows st (snd (run doc_type doc_ids st)).
Proof.
  revert st. induction doc_ids as [|doc_id rest IH]; intros st; cbn [outcomes].
  - apply grows_refl.
  - pose proof (entries_grows doc_type doc_id st) as G1.
    destruct (entries doc_type doc_id st) as [r st1].
    match goal with
    | |- context [run doc_type rest ?s] => specialize (IH s); destruct (run doc_type rest s)
    end.
    cbn [snd] in *. eapply grows_trans; [exact G1|].
    eapply grows_trans; [|exact IH].
    destruct (processed zip_refusal r); [apply grows_with_zip|].
    eapply grows_trans; [apply grows_with_zip | apply grows_add_log].
Qed.

Lemma outcomes_zip (doc_type : option string) (doc_ids : list string) (st : State) :
  zip_file (snd (run doc_type doc_ids st))
  = zip_file st ++ archived zip_refusal (fst (run doc_type doc_ids st)).
Proof.
  revert st. induction doc_ids as [|doc_id rest IH]; intros st; cbn [outcomes].
  - cbn. now rewrite app_nil_r.
  - pose proof (entries_same_zip doc_type doc_id st) as Z1.
    destruct (entries doc_type doc_id st) as [r st1].
    match goal with
    | |- context [run doc_type rest ?s] => specialize (IH s); destruct (run doc_type rest s)
    end.
    unfold same_zip in Z1. cbn [fst snd archived] in *. rewrite IH.
    destruct (processed zip_refusal r); cbn; rewrite Z1; now rewrite app_assoc.
Qed.

Lemma outcomes_failures_logged (doc_type : option string) (doc_ids : list string)
    (st : State) (doc_id : string) (r : Result Archive) :
  In (doc_id, r) (fst (run doc_type doc_ids st)) ->
  processed zip_refusal r = false ->
  In (LogException ("Failed to process document ID: " +++ doc_id))
     (logs (snd (run doc_type doc_ids st))).
Proof.
  revert st. induction doc_ids as [|d rest IH]; intros st; cbn [outcomes]; [intros []|].
  destruct (entries doc_type d st) as [r0 st1].
  match goal with
  | |- context [run doc_type rest ?s] =>
      specialize (IH s); pose proof (outcomes_grows doc_type rest s) as G;
      destruct (run doc_type rest s) as [os st2]
  end.
  cbn [fst snd] in *. intros [[= <- <-] | Hin] Hr; [|now apply IH].
  rewrite Hr in G. eapply grows_logs_In; [exact G|].
  cbn. apply in_app_iff. right. now left.
Qed.

Lemma archived_nil (os : list (string * Result Archive)) :
  (forall o, In o os -> exists e, snd o = Raise e) -> archived zip_refusal os = [].
Proof.
  induction os as [|[d [es|e]] os IH]; cbn; intros H; [reflexivity | |].
  - destruct (H _ (or_introl eq_refl)) as [e He]. discriminate.
  - apply IH. intros o Hin. apply H. now right.
Qed.

Lemma outcomes_invalid_type (doc_type : option string) (doc_ids : list string) (st : State) :
  py_eq doc_type "docx" = false -> py_eq doc_type "csv" = false ->
  forall o, In o (fst (run doc_type doc_ids st)) ->
    snd o = Raise (ValueError "Invalid document type").
Proof.
  intros Hd Hc. revert st.
  induction doc_ids as [|d rest IH]; intros st; cbn [outcomes]; [intros o []|].
  unfold entries_of at 1. rewrite Hd, Hc. unfold raise.
  match goal with
  | |- context [run doc_type rest ?s] => specialize (IH s); destruct (run doc_type rest s)
  end.
  cbn in *. intros o [<- | Hin]; [reflexivity | now apply IH].
Qed.

Lemma entries_docx_single (doc_type : option string) (doc_id : string) (st : State)
    (es : Archive) :
  py_eq doc_type "docx" = true ->
  fst (entries doc_type doc_id st) = Ok es -> exists e, es = [e].
Proof.
  unfold entries_of. intros ->. unfold bind, ret.
  destruct (create_document http html_parser prettify html_to_docx doc_id st)
    as [[file|e] st1]; cbn; [|discriminate].
  intros [= <-]. eauto.
Qed.

Lemma outcomes_docx_single (doc_type : option string) (doc_ids : list string) (st : State)
    (doc_id : string) (es : Archive) :
  py_eq doc_type "docx" = true ->
  In (doc_id, Ok es) (fst (run doc_type doc_ids st)) -> exists e, es = [e].
Proof.
  intros Hd. revert st.
  induction doc_ids as [|d rest IH]; intros st; cbn [outcomes]; [intros []|].
  pose proof (entries_docx_single doc_type d st) as S1.
  destruct (entries doc_type d st) as [r st1].
  match goal with
  | |- context [run doc_type rest ?s] => specialize (IH s); destruct (run doc_type rest s)
  end.
  cbn [fst snd] in *. intros [[= <- ->] | Hin]; [now apply S1 | now apply IH].
Qed.

Lemma kept_single (e : string * bytes) :
  processed zip_refusal (Ok [e]) = false -> kept zip_refusal (Ok [e]) = [].
Proof.
  destruct e as [name data]. cbn. now destruct (writable zip_refusal name).
Qed.

Lemma download_eq (doc_type : option string) (doc_ids : list string) (st : State) :
  download unicode_decimal http html_parser prettify html_to_docx zip_refusal doc_type doc_ids st
  = (Ok (archived zip_refusal (fst (run doc_type doc_ids (with_zip [] st)))),
     snd (run doc_type doc_ids (with_zip [] st))).
Proof.
  unfold download. change (mkState (requests st) (logs st) []) with (with_zip [] st).
  rewrite download_loop_eq. cbn [snd].
  now rewrite (outcomes_zip doc_type doc_ids (with_zip [] st)).
Qed.

(** C1, as the code has it. [download] never raises.  It takes the ids in
    order; an id that is not processed without error (its resolver or the
    converter raises, [doc_type] is neither [docx] nor [csv], or the archive
    turns down the name of one of its entries) is logged with its id and the
    remaining ids are still taken.  The archive returned holds,
    in the order of the ids, all the entries of every id processed without
    error and, of an id that failed while its entries were being written, the
    entries written before the failure: none for a document, possibly some
    for a spreadsheet.  It is empty when there is no id and when the
    resolution of every id raised. *)
Theorem download_keeps_successes (doc_type : option string) (doc_ids : list string)
    (st : State) :
  exists (os : list (string * Result Archive)) (st' : State),
    run doc_type doc_ids (with_zip [] st) = (os, st')
    /\ map fst os = doc_ids
    /\ download unicode_decimal http html_parser prettify html_to_docx zip_refusal
         doc_type doc_ids st
       = (Ok (archived zip_refusal os), st')
    /\ (forall doc_id r, In (doc_id, r) os -> processed zip_refusal r = false ->
          In (LogException ("Failed to process document ID: " +++ doc_id)) (logs st'))
    /\ (forall doc_id es, In (doc_id, Ok es) os ->
          (processed zip_refusal (Ok es) = true -> kept zip_refusal (Ok es) = es)
          /\ (exists rest, es = kept zip_refusal (Ok es) ++ rest)
          /\ (py_eq doc_type "docx" = true -> processed zip_refusal (Ok es) = false ->
                kept zip_refusal (Ok es) = []))
    /\ (doc_ids = [] -> archived zip_refusal os = [])
    /\ ((forall o, In o os -> exists e, snd o = Raise e) -> archived zip_refusal os = [])
    /\ (py_eq doc_type "docx" = false -> py_eq doc_type "csv" = false ->
          forall o, In o os -> snd o = Raise (ValueError "Invalid document type")).
Proof.
  destruct (run doc_type doc_ids (with_zip [] st)) as [os st'] eqn:Hrun.
  exists os, st'. split; [reflexivity|].
  split; [now rewrite <- (outcomes_ids doc_type doc_ids (with_zip [] st)), Hrun|].
  split; [|split; [|split; [|split; [|split]]]].
  - now rewrite download_eq, Hrun.
  - intros doc_id r Hin Hr.
    pose proof (outcomes_failures_logged doc_type doc_ids (with_zip [] st) doc_id r) as L.
    rewrite Hrun in L. now apply L.
  - intros doc_id es Hin. split; [apply fitting_all_fit|]. split; [apply fitting_prefix|].
    intros Hd Hp.
    pose proof (outcomes_docx_single doc_type doc_ids (with_zip [] st) doc_id es Hd) as S1.
    rewrite Hrun in S1. destruct (S1 Hin) as [e ->]. now apply kept_single.
  - intros ->. cbn in Hrun. now injection Hrun as <- _.
  - apply archived_nil.
  - intros Hd Hc.
    pose proof (outcomes_invalid_type doc_type doc_ids (with_zip [] st) Hd Hc) as I.
    now rewrite Hrun in I.
Qed.

(** ** Paths of the members *)


Lemma csv_files_names (os : list (string * option bytes)) (name : string) :
  In name (map fst (csv_files os)) ->
  exists tab, In tab (map fst os) /\ name = tab +++ ".csv".
Proof.
  induction os as [|[tab [b|]] os IH]; cbn; [intros [] | |].
  - intros [<- | Hin]; [now exists tab; split; [left|]|].
    destruct (IH Hin) as (t & Ht & ->). exists t. split; [now right | reflexivity].
  - intros Hin. destruct (IH Hin) as (t & Ht & ->). exists t. split; [now right | reflexivity].
Qed.

Lemma csv_files_NoDup (os : list (string * option bytes)) :
  NoDup (map fst os) -> NoDup (map fst (csv_files os)).
Proof.
  induction os as [|[tab [b|]] os IH]; cbn; intros H; [constructor | |].
  - inversion H as [|? ? Hnotin Hrest]; subst. constructor; [|now apply IH].
    intros Hin. apply csv_files_names in Hin as (t & Ht & Heq).
    apply append_inj_r in Heq. now subst.
  - inversion H; subst. now apply IH.
Qed.

Lemma member_path (dirname tab : string) :
  until_nul dirname = dirname -> until_nul tab = tab ->
  until_nul (dirname +++ "/" +++ tab +++ ".csv") = dirname +++ "/" +++ tab +++ ".csv".
Proof.
  intros Hd Ht. rewrite until_nul_append by assumption. f_equal.
  change ("/" +++ tab +++ ".csv") with (String "/" (tab +++ ".csv")).
  cbn [until_nul]. change (Ascii.eqb "/" zero) with false. cbn iota. f_equal.
  now rewrite until_nul_append by assumption.
Qed.


(** ** Requests *)

Lemma after_fetch_requests (url : string) (st : State) :
  requests (after_fetch http url st) = requests st ++ [url].
Proof. unfold after_fetch. destruct (http (requests st) url); reflexivity. Qed.

Lemma create_sheet_requests (spreadsheet_id sheet_id : string) (st : State) :
  In (export_url spreadsheet_id sheet_id)
     (requests (snd (create_sheet http spreadsheet_id sheet_id st))).
Proof.
  destruct (create_sheet_run spreadsheet_id sheet_id st) as (st' & H1 & H2).
  rewrite H1. cbn [snd]. rewrite H2. apply in_app_iff. right.
  destruct (csv_body _); now left.
Qed.

Lemma fetched_url_on_record (url : string) (st : State) :
  In url (requests (after_fetch http url st)).
Proof. rewrite after_fetch_requests. apply in_app_iff. right. now left. Qed.

Lemma entries_requests (doc_type : option string) (doc_id : string) (st : State) :
  (py_eq doc_type "docx" = true ->
     In (mobilebasic_url doc_id) (requests (snd (entries doc_type doc_id st))))
  /\ (py_eq doc_type "docx" = false -> py_eq doc_type "csv" = true ->
       In (htmlview_url doc_id) (requests (snd (entries doc_type doc_id st)))).
Proof.
  unfold entries_of. split.
  - intros ->. unfold bind.
    pose proof (create_document_eq doc_id st) as E. cbn zeta in E.
    destruct (create_document http html_parser prettify html_to_docx doc_id st)
      as [[file|e] st1];
      injection E as _ ->; apply fetched_url_on_record.
  - intros -> ->. unfold bind.
    pose proof (get_spreadsheet_title_eq doc_id st) as E. cbn zeta in E.
    destruct (get_spreadsheet_title http html_parser doc_id st) as [[dirname|e] st1];
      injection E as _ ->; [|apply fetched_url_on_record].
    pose proof (respects_create_spreadsheet (R := grows) doc_id
                  (after_fetch http (htmlview_url doc_id) st)) as G.
    destruct (create_spreadsheet unicode_decimal http doc_id _) as [[files|e] st2]; cbn in *;
      (eapply grows_requests_In; [exact G | apply fetched_url_on_record]).
Qed.

Lemma outcomes_requests (doc_type : option string) (doc_ids : list string)
    (st : State) (doc_id : string) :
  In doc_id doc_ids ->
  (py_eq doc_type "docx" = true ->
     In (mobilebasic_url doc_id) (requests (snd (run doc_type doc_ids st))))
  /\ (py_eq doc_type "docx" = false -> py_eq doc_type "csv" = true ->
       In (htmlview_url doc_id) (requests (snd (run doc_type doc_ids st)))).
Proof.
  revert st. induction doc_ids as [|d rest IH]; intros st; [intros []|].
  cbn [outcomes]. intros Hin.
  pose proof (entries_requests doc_type d st) as [Edoc Ecsv].
  destruct (entries doc_type d st) as [r st1].
  match goal with
  | |- context [run doc_type rest ?s] =>
      set (st1' := s); specialize (IH st1');
      pose proof (outcomes_grows doc_type rest st1') as G;
      destruct (run doc_type rest st1') as [os st2]
  end.
  assert (G1 : grows st1 st1').
  { subst st1'. destruct (processed zip_refusal r); [apply grows_with_zip|].
    eapply grows_trans; [apply grows_with_zip | apply grows_add_log]. }
  cbn [snd] in *. destruct Hin as [-> | Hin]; [|now apply IH].
  split.
  - intros Hd. eapply grows_requests_In; [exact G|].
    eapply grows_requests_In; [exact G1 | now apply Edoc].
  - intros Hd Hc. eapply grows_requests_In; [exact G|].
    eapply grows_requests_In; [exact G1 | now apply Ecsv].
Qed.

(** C9, as the code has it. No identifier is checked: every id of the batch,
    whatever its characters, is put as it is into the URL templates and
    requested, the [mobilebasic] URL for [docx] and the [htmlview] URL for
    [csv]; and [create_sheet] requests the export URL of any spreadsheet id
    and tab id it is given. *)
Theorem download_requests_every_id (doc_type : option string) (doc_ids : list string)
    (st : State) (doc_id : string) :
  In doc_id doc_ids ->
  let st' :=
    snd (download unicode_decimal http html_parser prettify html_to_docx zip_refusal
           doc_type doc_ids st) in
  (doc_type = Some "docx" ->
     In ("https://docs.google.com/document/d/" +++ doc_id +++ "/mobilebasic") (requests st'))
  /\ (doc_type = Some "csv" ->
       In ("https://docs.google.com/spreadsheets/u/0/d/" +++ doc_id +++ "/htmlview")
          (requests st'))
  /\ (forall spreadsheet_id sheet_id st0,
        In ("https://docs.google.com/spreadsheets/d/" +++ spreadsheet_id
              +++ "/export?format=csv&gid=" +++ sheet_id)
           (requests (snd (create_sheet http spreadsheet_id sheet_id st0)))).
Proof.
  intros Hin st'.
  assert (Hst : st' = snd (run doc_type doc_ids (with_zip [] st)))
    by (subst st'; now rewrite download_eq).
  rewrite Hst.
  destruct (outcomes_requests doc_type doc_ids (with_zip [] st) doc_id Hin) as [Hdoc Hcsv].
  split; [|split].
  - intros ->. now apply Hdoc.
  - intros ->. now apply Hcsv.
  - intros spreadsheet_id sheet_id st0. apply create_sheet_requests.
Qed.

End Properties.

(** * Further properties of the pipeline *)

(** ** Separators *)

Lemma sub_seps_from_is_clean (in_run : bool) (s : string) :
  clean (sub_seps_from in_run s) = true.
Proof.
  revert in_run. induction s as [|c s IH]; intros in_run; cbn; [reflexivity|].
  destruct (is_sep c) eqn:Sc.
  - destruct in_run; [apply IH|]. cbn. apply IH.
  - cbn. now rewrite Sc, IH.
Qed.

Lemma sub_seps_from_fixes_clean (in_run : bool) (s : string) :
  clean s = true -> sub_seps_from in_run s = s.
Proof.
  revert in_run. induction s as [|c s IH]; intros in_run; cbn; [reflexivity|].
  destruct (is_sep c); cbn; [discriminate|]. intros H. now rewrite IH.
Qed.

Lemma sub_seps_from_length (in_run : bool) (s : string) :
  String.length (sub_seps_from in_run s) <= String.length s.
Proof.
  revert in_run. induction s as [|c s IH]; intros in_run; cbn; [lia|].
  destruct (is_sep c); [destruct in_run|]; cbn;
    match goal with |- context [sub_seps_from ?b s] => specialize (IH b) end; lia.
Qed.

(** X5. Replacing the runs of separators leaves no separator behind, never
    makes a title longer, leaves a title without separators as it is, and so
    changes nothing when it is done a second time. *)
Theorem re_sub_seps_idempotent (s : string) :
  clean (re_sub_seps s) = true
  /\ String.length (re_sub_seps s) <= String.length s
  /\ (clean s = true -> re_sub_seps s = s)
  /\ re_sub_seps (re_sub_seps s) = re_sub_seps s.
Proof.
  unfold re_sub_seps.
  split; [apply sub_seps_from_is_clean|].
  split; [apply sub_seps_from_length|].
  split; [apply sub_seps_from_fixes_clean|].
  apply sub_seps_from_fixes_clean, sub_seps_from_is_clean.
Qed.

Section Coverage.

Variable unicode_decimal : string -> bool.
Variable http : list string -> string -> HttpOutcome.
Variable html_parser : string -> Result Node.
Variable prettify : Node -> string.
Variable html_to_docx : string -> Result bytes.
Variable zip_refusal : string -> option PyExc.

(** ** The fetcher and the tree builder *)

Lemma fetch_url_run (url : string) (st : State) :
  fetch_url http url st = (Ok (fetched (http (requests st) url)), after_fetch http url st).
Proof.
  rewrite fetch_url_eq. unfold after_fetch.
  destruct (http (requests st) url); reflexivity.
Qed.

Lemma after_fetch_logs (url : string) (st : State) :
  logs (after_fetch http url st) =
  logs st ++ match http (requests st) url with
             | Responded _ => []
             | RequestRaised => [fetch_failure url]
             end.
Proof.
  unfold after_fetch. destruct (http (requests st) url); cbn; [now rewrite app_nil_r | reflexivity].
Qed.

(** X1. [fetch_html] issues one GET.  It returns [None] exactly when the page
    is not fetched (a status other than 200, or a request that raised); for a
    fetched page it returns the tree that the tree builder makes of the
    response text, and when the builder rejects the markup its exception
    reaches the caller. *)
Theorem fetch_html_soup_iff_200 (url : string) (st : State) :
  exists (res : Result (option Node)) (st' : State),
    fetch_html http html_parser url st = (res, st')
    /\ requests st' = requests st ++ [url]
    /\ (forall tree, res = Ok (Some tree) <->
          exists resp, http (requests st) url = Responded resp
            /\ status_code resp = 200%Z /\ html_parser (text resp) = Ok tree)
    /\ (res = Ok None <-> fetched (http (requests st) url) = None)
    /\ (forall e, res = Raise e <->
          exists resp, http (requests st) url = Responded resp
            /\ status_code resp = 200%Z /\ html_parser (text resp) = Raise e).
Proof.
  rewrite fetch_html_run. do 2 eexists. split; [reflexivity|].
  split; [apply after_fetch_requests|].
  destruct (http (requests st) url) as [r|]; cbn [fetched].
  - destruct (status_code r =? 200)%Z eqn:S200.
    + apply Z.eqb_eq in S200.
      destruct (html_parser (text r)) as [soup|e0] eqn:P.
      * split; [|split].
        -- intros tree. split.
           ++ intros [= <-]. exists r. now repeat split.
           ++ intros (resp & [= <-] & _ & Ht). congruence.
        -- split; discriminate.
        -- intros e. split; [discriminate|].
           intros (resp & [= <-] & _ & Ht). congruence.
      * split; [|split].
        -- intros tree. split; [discriminate|].
           intros (resp & [= <-] & _ & Ht). congruence.
        -- split; discriminate.
        -- intros e. split.
           ++ intros [= <-]. exists r. now repeat split.
           ++ intros (resp & [= <-] & _ & Ht). congruence.
    + apply Z.eqb_neq in S200. split; [|split].
      * intros tree. split; [discriminate|].
        intros (resp & [= <-] & H200 & _). contradiction.
      * split; reflexivity.
      * intros e. split; [discriminate|].
        intros (resp & [= <-] & H200 & _). contradiction.
  - split; [|split].
    + intros tree. split; [discriminate | intros (resp & [=] & _)].
    + split; reflexivity.
    + intros e. split; [discriminate | intros (resp & [=] & _)].
Qed.

(** X2. [fetch_url] writes to the log only when the request raised: an answer
    is not logged, whatever its status, and a raised request leaves exactly
    one record naming the URL. *)
Theorem fetch_url_logs_only_raised (url : string) (st : State) :
  logs (snd (fetch_url http url st)) =
  logs st ++ match http (requests st) url with
             | Responded _ => []
             | RequestRaised => [LogException ("Failed to fetch: " +++ url)]
             end.
Proof. rewrite fetch_url_run. apply after_fetch_logs. Qed.

(** ** Tab ids and titles *)

Lemma get_sheet_ids_run (spreadsheet_id : string) (st : State) :
  get_sheet_ids unicode_decimal http spreadsheet_id st =
  (Ok (match fetched (http (requests st) (htmlview_url spreadsheet_id)) with
       | Some r =>
           match re_findall_gid unicode_decimal (text r) with
           | [] => ["0"]
           | found => dict_fromkeys found
           end
       | None => ["0"]
       end), after_fetch http (htmlview_url spreadsheet_id) st).
Proof.
  rewrite get_sheet_ids_eq. cbn zeta. unfold after_fetch.
  destruct (http (requests st) (htmlview_url spreadsheet_id)) as [r|]; [|reflexivity].
  cbn [fetched]. destruct (status_code r =? 200)%Z; reflexivity.
Qed.

Lemma get_sheet_ids_shape (spreadsheet_id : string) (st : State) (tabs : list string)
    (st' : State) :
  get_sheet_ids unicode_decimal http spreadsheet_id st = (Ok tabs, st') ->
  tabs <> [] /\ NoDup tabs /\ Forall (tab_id unicode_decimal) tabs.
Proof.
  rewrite get_sheet_ids_run. intros [= <- _].
  assert (Zero : ["0"] <> [] /\ NoDup ["0"] /\ Forall (tab_id unicode_decimal) ["0"]).
  { split; [discriminate|]. split; [repeat constructor; intros []|].
    repeat constructor; [discriminate|].
    apply (Run_cons unicode_decimal "0" ""); [discriminate | reflexivity | constructor]. }
  destruct (fetched (http (requests st) (htmlview_url spreadsheet_id))) as [r|];
    [|exact Zero].
  destruct (re_findall_gid unicode_decimal (text r)) as [|m ms] eqn:Found; [exact Zero|].
  split.
  - intros Hnil.
    assert (Hin : In m (dict_fromkeys (m :: ms)))
      by (apply (proj2 (dict_fromkeys_In _ _)); now left).
    rewrite Hnil in Hin. destruct Hin.
  - split; [apply dict_fromkeys_NoDup|].
    apply Forall_forall. intros t Hin.
    apply (proj1 (dict_fromkeys_In _ _)) in Hin.
    rewrite <- Found in Hin. now apply findall_gid_tab_id in Hin.
Qed.

(** X3. [get_sheet_ids] always returns, after one GET of the [htmlview] URL,
    a list that is never empty, has no repetition, and holds nothing but
    non-empty runs of decimal digits (ASCII or not, as [\d] matches them). *)
Theorem get_sheet_ids_digits (spreadsheet_id : string) (st : State) :
  exists (tabs : list string) (st' : State),
    get_sheet_ids unicode_decimal http spreadsheet_id st = (Ok tabs, st')
    /\ requests st' = requests st ++ [htmlview_url spreadsheet_id]
    /\ tabs <> []
    /\ NoDup tabs
    /\ Forall (tab_id unicode_decimal) tabs.
Proof.
  destruct (get_sheet_ids_returns unicode_decimal http spreadsheet_id st) as (tabs & st' & Hrun).
  exists tabs, st'. split; [exact Hrun|].
  split.
  - rewrite get_sheet_ids_run in Hrun. injection Hrun as _ <-.
    apply after_fetch_requests.
  - now apply get_sheet_ids_shape in Hrun.
Qed.

(** X4. A name returned by [get_spreadsheet_title] is either the fallback
    [spreadsheet_<id>] or free of the characters [.], [/] and space; the
    function issues one GET of the [htmlview] URL whether it returns or
    raises. *)
Theorem get_spreadsheet_title_clean (spreadsheet_id : string) (st : State) :
  requests (snd (get_spreadsheet_title http html_parser spreadsheet_id st))
  = requests st ++ [htmlview_url spreadsheet_id]
  /\ (forall dirname,
        fst (get_spreadsheet_title http html_parser spreadsheet_id st) = Ok dirname ->
        dirname = "spreadsheet_" +++ spreadsheet_id \/ clean dirname = true).
Proof.
  rewrite get_spreadsheet_title_eq. cbn zeta. cbn [fst snd].
  split; [apply after_fetch_requests|].
  intros dirname.
  destruct (fetched (http (requests st) (htmlview_url spreadsheet_id))) as [r|];
    [|intros [= <-]; now left].
  destruct (html_parser (text r)) as [soup|e]; [|discriminate].
  destruct (soup_title soup) as [t|]; [|intros [= <-]; now left].
  destruct (tag_string t) as [title|]; [|discriminate].
  intros [= <-]. right. apply sub_seps_from_is_clean.
Qed.

(** ** Exported tabs *)

Lemma csv_body_after_fetch (url : string) (st : State) (b : bytes) :
  csv_body (http (requests st) url) = Some b ->
  add_request url st = after_fetch http url st.
Proof.
  unfold after_fetch. destruct (http (requests st) url); [reflexivity | discriminate].
Qed.

Lemma create_sheet_state (spreadsheet_id sheet_id : string) (st : State) :
  snd (create_sheet http spreadsheet_id sheet_id st) =
  match csv_body (http (requests st) (export_url spreadsheet_id sheet_id)) with
  | Some _ => after_fetch http (export_url spreadsheet_id sheet_id) st
  | None =>
      after_fetch http (gviz_url spreadsheet_id sheet_id)
        (after_fetch http (export_url spreadsheet_id sheet_id) st)
  end.
Proof.
  unfold create_sheet. rewrite create_sheet_step.
  destruct (csv_body (http (requests st) (export_url spreadsheet_id sheet_id)))
    as [b|] eqn:E1.
  - cbn [snd]. now apply csv_body_after_fetch with (b := b).
  - change (match http (requests st) (export_url spreadsheet_id sheet_id) with
            | Responded _ => add_request (export_url spreadsheet_id sheet_id) st
            | RequestRaised =>
                add_log
                  (LogException ("Failed to fetch: " +++ export_url spreadsheet_id sheet_id))
                  (add_request (export_url spreadsheet_id sheet_id) st)
            end)
      with (after_fetch http (export_url spreadsheet_id sheet_id) st).
    set (st1 := after_fetch http (export_url spreadsheet_id sheet_id) st).
    rewrite create_sheet_step.
    destruct (csv_body (http (requests st1) (gviz_url spreadsheet_id sheet_id)))
      as [b|] eqn:E2.
    + cbn [snd]. now apply csv_body_after_fetch with (b := b).
    + reflexivity.
Qed.

Lemma csv_body_usable (o : HttpOutcome) (b : bytes) :
  csv_body o = Some b ->
  nonempty b = true /\ String.prefix "<!DOCTYPE" b = false.
Proof.
  destruct o as [r|]; cbn; [|discriminate].
  destruct (status_code r =? 200)%Z; cbn; [|discriminate].
  destruct (nonempty (content r)) eqn:N; cbn; [|discriminate].
  destruct (String.prefix "<!DOCTYPE" (content r)) eqn:P; cbn; [discriminate|].
  intros [= <-]. now split.
Qed.

Lemma create_sheet_body (spreadsheet_id sheet_id : string) (st : State) (b : bytes)
    (st' : State) :
  create_sheet http spreadsheet_id sheet_id st = (Ok (Some b), st') ->
  nonempty b = true /\ String.prefix "<!DOCTYPE" b = false.
Proof.
  destruct (create_sheet_run http spreadsheet_id sheet_id st) as (st1 & -> & _).
  intros [= H _].
  destruct (csv_body (http (requests st) (export_url spreadsheet_id sheet_id)))
    as [b1|] eqn:E1.
  - injection H as <-. now apply csv_body_usable in E1.
  - now apply csv_body_usable in H.
Qed.

Lemma tab_outcomes_bodies (spreadsheet_id : string) (tabs : list string) (st : State)
    (tab : string) (b : bytes) :
  In (tab, Some b) (fst (tab_outcomes http spreadsheet_id tabs st)) ->
  nonempty b = true /\ String.prefix "<!DOCTYPE" b = false.
Proof.
  revert st. induction tabs as [|t rest IH]; intros st; cbn [tab_outcomes]; [intros []|].
  destruct (create_sheet http spreadsheet_id t st) as [r st1] eqn:Hcs.
  match goal with
  | |- context [tab_outcomes http spreadsheet_id rest ?s] =>
      specialize (IH s); destruct (tab_outcomes http spreadsheet_id rest s) as [os st2]
  end.
  cbn in *. intros [[= <- Hbody] | Hin]; [|now apply IH].
  destruct r as [[b'|]|e]; try discriminate.
  injection Hbody as ->. now apply create_sheet_body in Hcs.
Qed.

Lemma csv_files_In (os : list (string * option bytes)) (name : string) (body : bytes) :
  In (name, body) (csv_files os) ->
  exists tab, In (tab, Some body) os /\ name = tab +++ ".csv".
Proof.
  induction os as [|[tab [b|]] os IH]; cbn; [intros [] | |].
  - intros [[= <- <-] | Hin]; [exists tab; split; [now left | reflexivity]|].
    destruct (IH Hin) as (t & Ht & ->). exists t. split; [now right | reflexivity].
  - intros Hin. destruct (IH Hin) as (t & Ht & ->). exists t. split; [now right | reflexivity].
Qed.

Lemma create_spreadsheet_files_shape (spreadsheet_id : string) (st : State)
    (files : list (string * bytes)) (st' : State) :
  create_spreadsheet unicode_decimal http spreadsheet_id st = (Ok files, st') ->
  files <> []
  /\ NoDup (map fst files)
  /\ Forall (fun file =>
               (exists tab, tab_id unicode_decimal tab /\ fst file = tab +++ ".csv")
               /\ nonempty (snd file) = true
               /\ String.prefix "<!DOCTYPE" (snd file) = false) files.
Proof.
  destruct (create_spreadsheet_run unicode_decimal http spreadsheet_id st)
    as (tabs & st1 & os & st2 & Hids & Hos & Htabs & ->).
  destruct (get_sheet_ids_shape spreadsheet_id st tabs st1 Hids) as (_ & Hnd & Hdigits).
  intros Hrun.
  assert (Hfiles : csv_files os = files /\ files <> []).
  { destruct (csv_files os) as [|f fs]; [discriminate|].
    injection Hrun as <- _. split; [reflexivity | discriminate]. }
  destruct Hfiles as [<- Hne].
  split; [exact Hne|]. split.
  - apply csv_files_NoDup. now rewrite Htabs.
  - apply Forall_forall. intros [name body] Hin.
    apply csv_files_In in Hin as (tab & Hin & ->). cbn [fst snd].
    split.
    + exists tab. split; [|reflexivity].
      rewrite Forall_forall in Hdigits. apply Hdigits.
      rewrite <- Htabs. now apply (in_map fst) in Hin.
    + pose proof (tab_outcomes_bodies spreadsheet_id tabs st1 tab body) as B.
      rewrite Hos in B. now apply B.
Qed.

(** X6. When [create_spreadsheet] returns, the list of files is not empty, the
    file names are pairwise distinct and each is a tab id (a non-empty run of
    decimal digits, ASCII or not) followed by [.csv], and no file is empty or
    begins with [<!DOCTYPE]. *)
Theorem create_spreadsheet_files (spreadsheet_id : string) (st : State)
    (files : list (string * bytes)) (st' : State) :
  create_spreadsheet unicode_decimal http spreadsheet_id st = (Ok files, st') ->
  files <> []
  /\ NoDup (map fst files)
  /\ Forall (fun file =>
               (exists tab, tab_id unicode_decimal tab /\ fst file = tab +++ ".csv")
               /\ nonempty (snd file) = true
               /\ String.prefix "<!DOCTYPE" (snd file) = false) files.
Proof. apply create_spreadsheet_files_shape. Qed.

Lemma tab_url_cons (spreadsheet_id tab : string) (tabs : list string) (url : string) :
  tab_url spreadsheet_id tabs url -> tab_url spreadsheet_id (tab :: tabs) url.
Proof. intros (t & Hin & H). exists t. split; [now right | exact H]. Qed.

Lemma create_sheet_request_list (spreadsheet_id sheet_id : string) (st : State) :
  exists l,
    requests (snd (create_sheet http spreadsheet_id sheet_id st)) = requests st ++ l
    /\ 1 <= List.length l <= 2
    /\ Forall (tab_url spreadsheet_id [sheet_id]) l.
Proof.
  destruct (create_sheet_run http spreadsheet_id sheet_id st) as (st' & Hrun & Hreq).
  rewrite Hrun. cbn [snd]. rewrite Hreq. eexists. split; [reflexivity|].
  assert (D : tab_url spreadsheet_id [sheet_id] (export_url spreadsheet_id sheet_id))
    by (exists sheet_id; split; [now left | now left]).
  assert (G : tab_url spreadsheet_id [sheet_id] (gviz_url spreadsheet_id sheet_id))
    by (exists sheet_id; split; [now left | now right]).
  destruct (csv_body _); cbn; (split; [lia | repeat constructor; assumption]).
Qed.

Lemma tab_outcomes_request_list (spreadsheet_id : string) (tabs : list string)
    (st : State) :
  exists l,
    requests (snd (tab_outcomes http spreadsheet_id tabs st)) = requests st ++ l
    /\ List.length tabs <= List.length l <= 2 * List.length tabs
    /\ Forall (tab_url spreadsheet_id tabs) l.
Proof.
  revert st. induction tabs as [|tab rest IH]; intros st; cbn [tab_outcomes].
  - exists []. cbn. rewrite app_nil_r. repeat split; auto.
  - destruct (create_sheet_request_list spreadsheet_id tab st) as (l1 & R1 & Len1 & F1).
    destruct (create_sheet http spreadsheet_id tab st) as [r st1].
    match goal with
    | |- context [tab_outcomes http spreadsheet_id rest ?s] =>
        destruct (IH s) as (l2 & R2 & Len2 & F2);
        destruct (tab_outcomes http spreadsheet_id rest s) as [os st2]
    end.
    cbn [snd] in *. exists (l1 ++ l2).
    split; [rewrite R2; cbn; rewrite R1; now rewrite app_assoc|].
    split; [rewrite length_app; cbn [List.length]; lia|].
    apply Forall_app. split.
    + eapply Forall_impl; [|exact F1].
      intros url (t & [Ht | []] & H). exists t. split; [now left | exact H].
    + eapply Forall_impl; [|exact F2]. intros url. apply tab_url_cons.
Qed.

Lemma create_spreadsheet_request_list (spreadsheet_id : string) (st : State) :
  exists (tabs : list string) (st1 : State) (l : list string),
    get_sheet_ids unicode_decimal http spreadsheet_id st = (Ok tabs, st1)
    /\ requests (snd (create_spreadsheet unicode_decimal http spreadsheet_id st))
       = requests st ++ htmlview_url spreadsheet_id :: l
    /\ List.length tabs <= List.length l <= 2 * List.length tabs
    /\ Forall (tab_url spreadsheet_id tabs) l.
Proof.
  destruct (create_spreadsheet_run unicode_decimal http spreadsheet_id st)
    as (tabs & st1 & os & st2 & Hids & Hos & _ & ->).
  destruct (tab_outcomes_request_list spreadsheet_id tabs st1) as (l & R & Len & F).
  rewrite Hos in R. cbn [snd] in *.
  exists tabs, st1, l. split; [exact Hids|].
  split; [|split; assumption].
  rewrite R. rewrite get_sheet_ids_run in Hids. injection Hids as _ <-.
  rewrite after_fetch_requests, <- app_assoc. reflexivity.
Qed.


(** ** Documents *)

Lemma create_document_state (doc_id : string) (st : State) :
  snd (create_document http html_parser prettify html_to_docx doc_id st)
  = after_fetch http (mobilebasic_url doc_id) st.
Proof. now rewrite create_document_eq. Qed.


(** ** What a batch adds to the state *)

Abbreviation entries :=
  (entries_of unicode_decimal http html_parser prettify html_to_docx).
Abbreviation run := (outcomes unicode_decimal http html_parser prettify html_to_docx zip_refusal).

Lemma adds_refl (Q : string -> Prop) (L : LogRecord -> Prop) (st : State) :
  adds Q L st st.
Proof. exists [], []. rewrite !app_nil_r. repeat split; constructor. Qed.

Lemma adds_trans (Q : string -> Prop) (L : LogRecord -> Prop) (a b c : State) :
  adds Q L a b -> adds Q L b c -> adds Q L a c.
Proof.
  intros (u1 & l1 & R1 & Q1 & L1 & F1) (u2 & l2 & R2 & Q2 & L2 & F2).
  exists (u1 ++ u2), (l1 ++ l2).
  rewrite R2, R1, L2, L1, !app_assoc.
  repeat split; try reflexivity; apply Forall_app; now split.
Qed.


Lemma adds_after_fetch (Q : string -> Prop) (L : LogRecord -> Prop) (url : string)
    (st : State) :
  Q url -> L (fetch_failure url) -> adds Q L st (after_fetch http url st).
Proof.
  intros HQ HL. exists [url]. eexists.
  split; [apply after_fetch_requests|]. split; [now constructor|].
  split; [apply after_fetch_logs|].
  destruct (http (requests st) url); repeat constructor. exact HL.
Qed.

Lemma adds_add_log (Q : string -> Prop) (L : LogRecord -> Prop) (r : LogRecord)
    (st : State) :
  L r -> adds Q L st (add_log r st).
Proof.
  intros HL. exists [], [r]. cbn. rewrite app_nil_r.
  repeat split; repeat constructor. exact HL.
Qed.


Lemma batch_url_export (doc_ids : list string) (doc_id tab : string) :
  In doc_id doc_ids -> tab_id unicode_decimal tab ->
  batch_url unicode_decimal doc_ids (export_url doc_id tab)
  /\ batch_url unicode_decimal doc_ids (gviz_url doc_id tab).
Proof.
  intros Hin Htab. split; exists doc_id; (split; [exact Hin|]); right; right;
    exists tab; (split; [exact Htab|]); [now left | now right].
Qed.

Lemma resolver_log_fetch (doc_ids : list string) (url : string) :
  batch_url unicode_decimal doc_ids url -> resolver_log unicode_decimal doc_ids (fetch_failure url).
Proof. intros H. left. now exists url. Qed.

Lemma tab_outcomes_adds (doc_ids : list string) (spreadsheet_id : string)
    (tabs : list string) (st : State) :
  In spreadsheet_id doc_ids -> Forall (tab_id unicode_decimal) tabs ->
  adds (batch_url unicode_decimal doc_ids) (resolver_log unicode_decimal doc_ids) st
       (snd (tab_outcomes http spreadsheet_id tabs st)).
Proof.
  intros Hid Htabs. revert st.
  induction tabs as [|tab rest IH]; intros st; cbn [tab_outcomes]; [apply adds_refl|].
  inversion Htabs as [|? ? Htab Hrest]; subst.
  destruct (batch_url_export doc_ids spreadsheet_id tab Hid Htab) as [Hd Hg].
  pose proof (create_sheet_state spreadsheet_id tab st) as Hst.
  destruct (create_sheet http spreadsheet_id tab st) as [r st1]. cbn [snd] in Hst.
  match goal with
  | |- context [tab_outcomes http spreadsheet_id rest ?s] =>
      pose proof (IH Hrest s) as IHs;
      destruct (tab_outcomes http spreadsheet_id rest s) as [os st2]
  end.
  cbn [snd] in *.
  apply adds_trans with (b := st1); [|eapply adds_trans; [|exact IHs]].
  - rewrite Hst.
    destruct (csv_body (http (requests st) (export_url spreadsheet_id tab))).
    + apply adds_after_fetch; [exact Hd | now apply resolver_log_fetch].
    + apply adds_trans with (b := after_fetch http (export_url spreadsheet_id tab) st);
        (apply adds_after_fetch; [assumption | now apply resolver_log_fetch]).
  - apply adds_add_log.
    destruct (match r with Ok b => b | Raise _ => None end).
    + right. left. now exists tab.
    + right. right. now exists tab, spreadsheet_id.
Qed.

Lemma create_spreadsheet_adds (doc_ids : list string) (spreadsheet_id : string)
    (st : State) :
  In spreadsheet_id doc_ids ->
  adds (batch_url unicode_decimal doc_ids) (resolver_log unicode_decimal doc_ids) st
       (snd (create_spreadsheet unicode_decimal http spreadsheet_id st)).
Proof.
  intros Hid.
  destruct (create_spreadsheet_run unicode_decimal http spreadsheet_id st)
    as (tabs & st1 & os & st2 & Hids & Hos & _ & ->).
  destruct (get_sheet_ids_shape spreadsheet_id st tabs st1 Hids) as (_ & _ & Hdigits).
  pose proof (tab_outcomes_adds doc_ids spreadsheet_id tabs st1 Hid Hdigits) as T.
  rewrite Hos in T. cbn [snd] in *.
  eapply adds_trans; [|exact T].
  rewrite get_sheet_ids_run in Hids. injection Hids as _ <-.
  assert (Hu : batch_url unicode_decimal doc_ids (htmlview_url spreadsheet_id))
    by (exists spreadsheet_id; split; [exact Hid | right; now left]).
  apply adds_after_fetch; [exact Hu | now apply resolver_log_fetch].
Qed.

Lemma get_spreadsheet_title_state (spreadsheet_id : string) (st : State) :
  snd (get_spreadsheet_title http html_parser spreadsheet_id st)
  = after_fetch http (htmlview_url spreadsheet_id) st.
Proof. now rewrite get_spreadsheet_title_eq. Qed.

Lemma entries_adds (doc_ids : list string) (doc_type : option string) (doc_id : string)
    (st : State) :
  In doc_id doc_ids ->
  adds (batch_url unicode_decimal doc_ids) (resolver_log unicode_decimal doc_ids)
    st (snd (entries doc_type doc_id st)).
Proof.
  intros Hid. unfold entries_of.
  destruct (py_eq doc_type "docx").
  - unfold bind.
    pose proof (create_document_state doc_id st) as Hst.
    destruct (create_document http html_parser prettify html_to_docx doc_id st)
      as [[file|e] st1]; cbn [snd] in *; rewrite Hst;
      (apply adds_after_fetch;
       [exists doc_id; split; [exact Hid | now left]
       |apply resolver_log_fetch; exists doc_id; split; [exact Hid | now left]]).
  - destruct (py_eq doc_type "csv"); [|apply adds_refl].
    unfold bind.
    pose proof (get_spreadsheet_title_state doc_id st) as Hst.
    assert (Hu : batch_url unicode_decimal doc_ids (htmlview_url doc_id))
      by (exists doc_id; split; [exact Hid | right; now left]).
    assert (T : adds (batch_url unicode_decimal doc_ids) (resolver_log unicode_decimal doc_ids) st
                  (after_fetch http (htmlview_url doc_id) st))
      by (apply adds_after_fetch; [exact Hu | now apply resolver_log_fetch]).
    destruct (get_spreadsheet_title http html_parser doc_id st) as [[dirname|e] st1];
      cbn [snd] in *; subst st1; [|exact T].
    pose proof (create_spreadsheet_adds doc_ids doc_id
                  (after_fetch http (htmlview_url doc_id) st) Hid) as C.
    destruct (create_spreadsheet unicode_decimal http doc_id _) as [[files|e] st2]; cbn [snd] in *;
      (eapply adds_trans; [exact T | exact C]).
Qed.

Lemma batch_url_incl (ids all : list string) (url : string) :
  incl ids all -> batch_url unicode_decimal ids url -> batch_url unicode_decimal all url.
Proof. intros Hincl (d & Hin & H). exists d. split; [now apply Hincl | exact H]. Qed.



(** ** Failure records *)

Lemma resolver_log_quiet (doc_ids : list string) (r : LogRecord) :
  resolver_log unicode_decimal doc_ids r -> is_process_failure r = false.
Proof.
  intros [(url & _ & ->) | [(tab & _ & ->) | (tab & d & _ & _ & ->)]]; reflexivity.
Qed.

Lemma process_failure_loud (doc_id : string) :
  is_process_failure (process_failure doc_id) = true.
Proof. cbn. now destruct doc_id. Qed.

Lemma filter_quiet (lines : list LogRecord) :
  Forall (fun r => is_process_failure r = false) lines ->
  filter is_process_failure lines = [].
Proof.
  induction 1 as [|r l Hr _ IH]; cbn; [reflexivity | now rewrite Hr].
Qed.

Lemma outcomes_failure_records (doc_type : option string) (doc_ids : list string)
    (st : State) :
  exists lines,
    logs (snd (run doc_type doc_ids st)) = logs st ++ lines
    /\ filter is_process_failure lines
       = map process_failure (failed zip_refusal (fst (run doc_type doc_ids st))).
Proof.
  revert st. induction doc_ids as [|d rest IH]; intros st; cbn [outcomes].
  - exists []. cbn. now rewrite app_nil_r.
  - destruct (entries_adds [d] doc_type d st (or_introl eq_refl))
      as (_ & l1 & _ & _ & L1 & F1).
    destruct (entries doc_type d st) as [r st1].
    match goal with
    | |- context [run doc_type rest ?s] =>
        destruct (IH s) as (l2 & L2 & F2); destruct (run doc_type rest s) as [os st2]
    end.
    cbn [fst snd] in *.
    assert (Q1 : filter is_process_failure l1 = []).
    { apply filter_quiet. eapply Forall_impl; [|exact F1].
      intros r0. apply resolver_log_quiet. }
    cbn [failed]. destruct (processed zip_refusal r); cbn [map].
    + exists (l1 ++ l2). split.
      * rewrite L2. cbn. rewrite L1. now rewrite app_assoc.
      * now rewrite filter_app, Q1.
    + exists (l1 ++ process_failure d :: l2). split.
      * rewrite L2. cbn. rewrite L1. now rewrite <- !app_assoc.
      * rewrite filter_app, Q1. cbn [filter app].
        rewrite process_failure_loud. now rewrite F2.
Qed.

Lemma failed_filter (os : list (string * Result Archive)) :
  failed zip_refusal os = map fst (filter (fun o => negb (processed zip_refusal (snd o))) os).
Proof.
  induction os as [|[d r] os IH]; cbn; [reflexivity|].
  destruct (processed zip_refusal r); cbn; now rewrite IH.
Qed.

(** X11. A build logs exactly one record "Failed to process document ID" for
    each id that was not processed without error (its resolution raised, or
    one of its entries could not be written), in the order of the ids, and
    none for an id that was processed without error. *)
Theorem download_failure_records (doc_type : option string) (doc_ids : list string)
    (st : State) :
  exists (os : list (string * Result Archive)) (st' : State) (lines : list LogRecord),
    run doc_type doc_ids (with_zip [] st) = (os, st')
    /\ download unicode_decimal http html_parser prettify html_to_docx zip_refusal
         doc_type doc_ids st
       = (Ok (archived zip_refusal os), st')
    /\ logs st' = logs st ++ lines
    /\ filter is_process_failure lines
       = map (fun doc_id => LogException ("Failed to process document ID: " +++ doc_id))
           (failed zip_refusal os)
    /\ failed zip_refusal os = map fst (filter (fun o => negb (processed zip_refusal (snd o))) os).
Proof.
  destruct (outcomes_failure_records doc_type doc_ids (with_zip [] st)) as (lines & L & F).
  destruct (run doc_type doc_ids (with_zip [] st)) as [os st'] eqn:Hrun.
  exists os, st', lines. split; [reflexivity|].
  split; [now rewrite (download_eq unicode_decimal), Hrun|].
  split; [exact L|]. split; [exact F | apply failed_filter].
Qed.

Lemma outcomes_invalid (doc_type : option string) (doc_ids : list string) (st : State) :
  py_eq doc_type "docx" = false -> py_eq doc_type "csv" = false ->
  run doc_type doc_ids st =
  (map (fun doc_id => (doc_id, Raise (ValueError "Invalid document type"))) doc_ids,
   mkState (requests st) (logs st ++ map process_failure doc_ids) (zip_file st)).
Proof.
  intros Hd Hc. revert st.
  induction doc_ids as [|d rest IH]; intros st; cbn [outcomes map].
  - rewrite app_nil_r. now destruct st.
  - unfold entries_of at 1. rewrite Hd, Hc. unfold raise.
    cbn [kept processed]. rewrite with_zip_same, IH. cbn. now rewrite <- app_assoc.
Qed.

Lemma archived_all_raised (doc_ids : list string) (e : PyExc) :
  archived zip_refusal (map (fun doc_id => (doc_id, @Raise Archive e)) doc_ids) = [].
Proof. induction doc_ids as [|d rest IH]; [reflexivity | exact IH]. Qed.

(** X9. With a [doc_type] that is neither [docx] nor [csv], a build contacts
    no server: it returns the empty archive, issues no request, and logs one
    failure per id, in the order of the ids. *)
Theorem download_invalid_doc_type (doc_type : option string) (doc_ids : list string)
    (st : State) :
  py_eq doc_type "docx" = false -> py_eq doc_type "csv" = false ->
  download unicode_decimal http html_parser prettify html_to_docx zip_refusal doc_type doc_ids st =
  (Ok [],
   mkState (requests st)
     (logs st ++ map (fun doc_id =>
                        LogException ("Failed to process document ID: " +++ doc_id)) doc_ids)
     []).
Proof.
  intros Hd Hc. rewrite download_eq, (outcomes_invalid doc_type doc_ids _ Hd Hc).
  cbn [fst snd]. now rewrite archived_all_raised.
Qed.

(** ** Members of one id *)

Lemma csv_entries (doc_id : string) (st : State) (es : Archive) (st' : State) :
  entries (Some "csv") doc_id st = (Ok es, st') ->
  exists dirname st1 files,
    get_spreadsheet_title http html_parser doc_id st = (Ok dirname, st1)
    /\ create_spreadsheet unicode_decimal http doc_id st1 = (Ok files, st')
    /\ es = map (fun file => (until_nul (dirname +++ "/" +++ fst file), snd file)) files.
Proof.
  unfold entries_of. cbn [py_eq]. change ("csv" =? "docx")%string with false.
  change ("csv" =? "csv")%string with true. cbn iota. unfold bind, ret.
  destruct (get_spreadsheet_title http html_parser doc_id st) as [[dirname|e] st1];
    [|discriminate].
  destruct (create_spreadsheet unicode_decimal http doc_id st1) as [[files|e] st2] eqn:Hcs;
      [|discriminate].
  intros [= <- <-]. exists dirname, st1, files. repeat split. exact Hcs.
Qed.

Lemma csv_member_path_form (doc_id : string) (st : State) (es : Archive) (st' : State) :
  entries (Some "csv") doc_id st = (Ok es, st') ->
  exists dirname st1,
    get_spreadsheet_title http html_parser doc_id st = (Ok dirname, st1)
    /\ es <> []
    /\ (until_nul dirname = dirname ->
         Forall (fun path => exists tab,
                   tab_id unicode_decimal tab
                   /\ path = dirname +++ "/" +++ tab +++ ".csv") (paths es)).
Proof.
  intros Hrun. apply csv_entries in Hrun as (dirname & st1 & files & Ht & Hcs & ->).
  destruct (create_spreadsheet_files_shape doc_id st1 files st' Hcs) as (Hne & _ & Hshape).
  exists dirname, st1. split; [exact Ht|]. split.
  - destruct files; [contradiction | discriminate].
  - intros Hd. unfold paths. rewrite map_map. cbn [fst].
    apply Forall_map. eapply Forall_impl; [|exact Hshape].
    intros [name body] ((tab & Htab & Hname) & _). cbn [fst] in *. subst name.
    exists tab. split; [exact Htab|].
    apply member_path; [exact Hd | now apply tab_id_no_nul in Htab].
Qed.

Lemma fitting_fits (es : Archive) :
  Forall (fun path => zip_refusal path = None) (paths (fitting zip_refusal es)).
Proof.
  induction es as [|[name data] es IH]; cbn; [constructor|].
  unfold writable. destruct (zip_refusal name) eqn:E; cbn; [constructor|].
  constructor; [exact E | exact IH].
Qed.

(** X12. The entries of a resolved spreadsheet are at least one, and each
    sits under the directory named by [get_spreadsheet_title] with a path
    [<dirname>/<tab_id>.csv] whose tab id is a non-empty run of decimal
    digits (for a directory name without NUL character).  The members written
    are the entries up to the first whose path the archive turns down, all of
    them when it turns down none. *)
Theorem csv_members_under_title (doc_id : string) (st : State) (es : Archive)
    (st' : State) :
  entries (Some "csv") doc_id st = (Ok es, st') ->
  exists dirname st1,
    get_spreadsheet_title http html_parser doc_id st = (Ok dirname, st1)
    /\ es <> []
    /\ (until_nul dirname = dirname ->
         Forall (fun path => exists tab,
                   tab_id unicode_decimal tab
                   /\ path = dirname +++ "/" +++ tab +++ ".csv") (paths es))
    /\ (exists rest, es = kept zip_refusal (Ok es) ++ rest)
    /\ Forall (fun path => zip_refusal path = None) (paths (kept zip_refusal (Ok es)))
    /\ (processed zip_refusal (Ok es) = true -> kept zip_refusal (Ok es) = es).
Proof.
  intros Hrun.
  destruct (csv_member_path_form doc_id st es st' Hrun) as (dirname & st1 & Ht & Hne & Hp).
  exists dirname, st1. split; [exact Ht|]. split; [exact Hne|]. split; [exact Hp|].
  split; [apply fitting_prefix|]. split; [apply fitting_fits | apply fitting_all_fit].
Qed.

(** X13. Processing a spreadsheet id fetches its [htmlview] page twice, once
    for the title and once for the tabs, before any export is asked for; when
    the title cannot be computed the page is fetched once and no export is
    attempted. *)
Theorem csv_preview_fetched_twice (doc_id : string) (st : State) :
  let title := get_spreadsheet_title http html_parser doc_id st in
  let st' := snd (entries (Some "csv") doc_id st) in
  (forall e, fst title = Raise e -> requests st' = requests st ++ [htmlview_url doc_id])
  /\ (forall dirname, fst title = Ok dirname ->
        exists exports,
          exports <> []
          /\ requests st'
             = requests st ++ htmlview_url doc_id :: htmlview_url doc_id :: exports).
Proof.
  intros title st'. subst title st'.
  unfold entries_of. cbn [py_eq]. change ("csv" =? "docx")%string with false.
  change ("csv" =? "csv")%string with true. cbn iota. unfold bind.
  pose proof (get_spreadsheet_title_state doc_id st) as Hst.
  destruct (get_spreadsheet_title http html_parser doc_id st) as [[dirname|e] st1];
    cbn [fst snd] in *; subst st1.
  - split; [discriminate|]. intros d _.
    destruct (create_spreadsheet_request_list doc_id
                (after_fetch http (htmlview_url doc_id) st))
      as (tabs & st2 & l & Hids & Hreq & Hlen & _).
    destruct (get_sheet_ids_shape doc_id _ tabs st2 Hids) as (Hne & _).
    exists l. split.
    + intros ->. destruct tabs; [contradiction | cbn in Hlen; lia].
    + destruct (create_spreadsheet unicode_decimal http doc_id _) as [[files|e] st3];
        unfold ret; cbn [snd] in *;
        rewrite Hreq, after_fetch_requests, <- app_assoc; reflexivity.
  - split; [|discriminate]. intros _ _. apply after_fetch_requests.
Qed.

Lemma entries_nonempty (doc_type : option string) (doc_id : string) (st : State)
    (es : Archive) (st' : State) :
  entries doc_type doc_id st = (Ok es, st') ->
  es <> [] /\ (py_eq doc_type "docx" = true -> List.length es = 1).
Proof.
  unfold entries_of. destruct (py_eq doc_type "docx").
  - unfold bind, ret.
    destruct (create_document http html_parser prettify html_to_docx doc_id st)
      as [[file|e] st1]; [|discriminate].
    intros [= <- _]. split; [discriminate | reflexivity].
  - destruct (py_eq doc_type "csv"); [|discriminate].
    unfold bind, ret.
    destruct (get_spreadsheet_title http html_parser doc_id st) as [[dirname|e] st1];
      [|discriminate].
    destruct (create_spreadsheet unicode_decimal http doc_id st1) as [[files|e] st2] eqn:Hcs;
      [|discriminate].
    intros [= <- _].
    destruct (create_spreadsheet_files_shape doc_id st1 files st2 Hcs) as (Hne & _).
    split; [|discriminate]. destruct files; [contradiction | discriminate].
Qed.

Lemma outcomes_counts (doc_type : option string) (doc_ids : list string) (st : State) :
  let os := fst (run doc_type doc_ids st) in
  (forall doc_id r, In (doc_id, r) os -> processed zip_refusal r = true -> kept zip_refusal r <> [])
  /\ List.length doc_ids
     <= List.length (archived zip_refusal os) + List.length (failed zip_refusal os)
  /\ (py_eq doc_type "docx" = true ->
       List.length (archived zip_refusal os) + List.length (failed zip_refusal os)
       = List.length doc_ids).
Proof.
  revert st. induction doc_ids as [|d rest IH]; intros st; cbn [outcomes].
  - cbn. split; [intros _ _ []|]. split; [lia | auto].
  - pose proof (entries_nonempty doc_type d st) as E.
    destruct (entries doc_type d st) as [r st1].
    match goal with
    | |- context [run doc_type rest ?s] =>
        destruct (IH s) as (I1 & I2 & I3); destruct (run doc_type rest s) as [os st2]
    end.
    cbn [fst] in *. cbn [archived failed].
    assert (Hkept : processed zip_refusal r = true -> kept zip_refusal r <> []).
    { destruct r as [es|e]; [|discriminate]. cbn [processed kept]. intros Hfit.
      rewrite (fitting_all_fit zip_refusal es Hfit). now destruct (E es st1 eq_refl). }
    split; [|split].
    + intros d' r' [[= <- <-] | Hin]; [exact Hkept | now apply (I1 d' r')].
    + rewrite length_app. destruct (processed zip_refusal r) eqn:P; cbn [List.length].
      * specialize (Hkept eq_refl). destruct (kept zip_refusal r); [contradiction | cbn; lia].
      * lia.
    + intros Hd. specialize (I3 Hd). rewrite length_app.
      destruct r as [es|e]; cbn [processed kept List.length] in *.
      * destruct (E es st1 eq_refl) as [_ Hone]. specialize (Hone Hd).
        destruct es as [|e0 [|e1 es]]; try discriminate.
        destruct e0 as [name data]. cbn. destruct (writable zip_refusal name); cbn; lia.
      * cbn. lia.
Qed.

Lemma archived_nil_all_failed (os : list (string * Result Archive)) :
  (forall doc_id r,
     In (doc_id, r) os -> processed zip_refusal r = true -> kept zip_refusal r <> []) ->
  archived zip_refusal os = [] -> forall o, In o os -> processed zip_refusal (snd o) = false.
Proof.
  induction os as [|[d r] os IH]; cbn; intros Hne Hnil o Hin; [destruct Hin|].
  apply app_eq_nil in Hnil as [Hk Hrest].
  destruct Hin as [<- | Hin].
  - cbn. destruct (processed zip_refusal r) eqn:P; [|reflexivity].
    exfalso. apply (Hne d r); auto.
  - apply IH; auto. intros d' r' H'. apply (Hne d' r'). now right.
Qed.

(** X14. The archive of a build is empty only when every id failed: an id
    processed without error always contributes a member (exactly one for
    [docx], where a failed id contributes none), so members and failures
    together are at least as many as the ids, and exactly as many for
    [docx]. *)
Theorem download_empty_only_if_all_failed (doc_type : option string)
    (doc_ids : list string) (st : State) :
  exists (os : list (string * Result Archive)) (st' : State),
    run doc_type doc_ids (with_zip [] st) = (os, st')
    /\ download unicode_decimal http html_parser prettify html_to_docx zip_refusal
         doc_type doc_ids st
       = (Ok (archived zip_refusal os), st')
    /\ (archived zip_refusal os = [] -> forall o, In o os -> processed zip_refusal (snd o) = false)
    /\ (forall doc_id r,
          In (doc_id, r) os -> processed zip_refusal r = true -> kept zip_refusal r <> [])
    /\ List.length doc_ids
       <= List.length (archived zip_refusal os) + List.length (failed zip_refusal os)
    /\ (doc_type = Some "docx" ->
         List.length (archived zip_refusal os) + List.length (failed zip_refusal os)
         = List.length doc_ids).
Proof.
  pose proof (outcomes_counts doc_type doc_ids (with_zip [] st)) as C. cbn zeta in C.
  destruct (run doc_type doc_ids (with_zip [] st)) as [os st'] eqn:Hrun.
  cbn [fst] in C. destruct C as (C1 & C2 & C3).
  exists os, st'. split; [reflexivity|].
  split; [now rewrite (download_eq unicode_decimal), Hrun|].
  split; [now apply archived_nil_all_failed|].
  split; [exact C1|]. split; [exact C2|].
  intros ->. now apply C3.
Qed.

End Coverage.

(** * The sample worlds *)

(** ** Patterns *)

Example re_findall_gid_scan :
  re_findall_gid sample_decimal "gid=12&gid=3x gid= gigid=45,gid=x6 ggid=7gid=08"
  = ["12"; "3"; "45"; "7"; "08"].
Proof. reflexivity. Qed.

(** [\d] matches the decimal digits of any script: an Arabic-Indic three is a
    tab id, alone and next to ASCII digits. *)
Example re_findall_gid_unicode :
  re_findall_gid sample_decimal ("gid=" +++ arabic_three +++ "&gid=1" +++ arabic_three +++ "2;")
  = [arabic_three; "1" +++ arabic_three +++ "2"].
Proof. reflexivity. Qed.

(** A byte that only begins the encoding of a digit is no digit. *)
Example re_findall_gid_truncated :
  re_findall_gid sample_decimal ("gid=" +++ String (ascii_of_nat 217) "x") = [].
Proof. reflexivity. Qed.

Example re_sub_seps_title : re_sub_seps "My Sheet / Q1.2024" = "My_Sheet_Q1_2024".
Proof. reflexivity. Qed.

Lemma sub_seps_from_clean (in_run : bool) (s : string) :
  forall c, In c (list_ascii_of_string (sub_seps_from in_run s)) -> is_sep c = false.
Proof.
  revert in_run. induction s as [|a s IH]; intros in_run c; cbn; [intros []|].
  destruct (is_sep a) eqn:Sa.
  - destruct in_run; [apply IH|].
    cbn. intros [<- | Hin]; [reflexivity | now apply IH in Hin].
  - cbn. intros [<- | Hin]; [assumption | now apply IH in Hin].
Qed.

(** No separator is left in a replaced title. *)
Lemma re_sub_seps_clean (s : string) (c : ascii) :
  In c (list_ascii_of_string (re_sub_seps s)) -> is_sep c = false.
Proof. apply sub_seps_from_clean. Qed.

(** A maximal run of separators becomes one underscore. *)
Lemma re_sub_seps_run (a : ascii) (before run after : string) :
  is_sep a = false ->
  run <> "" ->
  (forall c, In c (list_ascii_of_string run) -> is_sep c = true) ->
  (forall c, In c (list_ascii_of_string before) -> is_sep c = false) ->
  re_sub_seps (before +++ run +++ String a after)
  = before +++ "_" +++ String a (re_sub_seps after).
Proof.
  intros Ha Hrun Hseps Hclean. unfold re_sub_seps.
  induction before as [|b before IH]; cbn.
  - destruct run as [|r run]; [congruence|]. cbn.
    rewrite (Hseps r (or_introl eq_refl)). f_equal.
    assert (Tail : forall run', (forall c, In c (list_ascii_of_string run') -> is_sep c = true) ->
              sub_seps_from true (run' +++ String a after)
              = String a (sub_seps_from false after)).
    { induction run' as [|r' run' IHr]; cbn; intros H'.
      - now rewrite Ha.
      - rewrite (H' r' (or_introl eq_refl)). apply IHr.
        intros c Hc. apply H'. now right. }
    apply Tail. intros c Hc. apply Hseps. now right.
  - rewrite (Hclean b (or_introl eq_refl)). f_equal.
    apply IH. intros c Hc. apply Hclean. now right.
Qed.

(** ** Fetching *)

(** An unreachable URL: nothing is returned, the failure is logged. *)
Lemma fetch_url_present_iff_200_witness :
  exists st' : State,
    fetch_url (serve doc_site) "https://docs.google.com/nowhere" st0 = (Ok None, st')
    /\ logs st' = [LogException "Failed to fetch: https://docs.google.com/nowhere"].
Proof.
  destruct (fetch_url_present_iff_200 (serve doc_site) "https://docs.google.com/nowhere" st0)
    as (r & st' & Hrun & _ & _ & Hraised & _).
  destruct (Hraised eq_refl) as [-> Hlog].
  exists st'. split; assumption.
Defined.

(** ** Tabs *)

(** A page with [gid=7], [gid=3], [gid=7] lists the tabs 7 and 3. *)
Lemma get_sheet_ids_first_seen_witness :
  exists st' : State,
    get_sheet_ids sample_decimal (serve tabs_site) "sheetA" st0 = (Ok ["7"; "3"], st').
Proof.
  destruct (get_sheet_ids_first_seen sample_decimal (serve tabs_site) "sheetA" st0)
    as (tabs & st' & Hrun & _ & Hpage).
  destruct (Hpage (page tabs_text) eq_refl) as (found & _ & _ & _ & _ & Hseen).
  exists st'. rewrite Hrun. f_equal. f_equal.
  apply (Hseen "<a href='#" "'>A</a><a href='#" "'>B</a><a href='#" "'>A</a>").
  - reflexivity.
  - apply no_occurrence_findall. reflexivity.
  - apply no_occurrence_findall. reflexivity.
  - apply no_occurrence_findall. reflexivity.
  - apply no_occurrence_findall. reflexivity.
  - reflexivity.
  - reflexivity.
  - reflexivity.
Defined.

(** A tab numbered with an Arabic-Indic digit is listed, and asked for under
    that id. *)
Example get_sheet_ids_unicode :
  exists st' : State,
    get_sheet_ids sample_decimal (serve tabs_site) "sheetU" st0
    = (Ok [arabic_three; "7"], st').
Proof. eexists. reflexivity. Qed.

(** The direct export of tab 3 is an HTML page with status 200: the query
    export is used. *)
Example create_sheet_skips_doctype :
  exists st' : State,
    create_sheet (serve sheet_site) "sheetC" "3" st0 = (Ok (Some "c,d"), st')
    /\ requests st' =
         ["https://docs.google.com/spreadsheets/d/sheetC/export?format=csv&gid=3";
          "https://docs.google.com/spreadsheets/d/sheetC/gviz/tq?tqx=out:csv&gid=3"].
Proof. eexists. split; reflexivity. Qed.


(** The failed export of tab 2 is on the log when the spreadsheet is resolved. *)
Lemma create_spreadsheet_exports_tabs_witness :
  exists st' : State,
    create_spreadsheet sample_decimal (serve sheet_site) "sheetD" st0 = (Ok [("1.csv", "e,f")], st')
    /\ In (LogError "Failed to fetch sheet 2 for sheetD") (logs st').
Proof.
  destruct (create_spreadsheet_exports_tabs sample_decimal (serve sheet_site) "sheetD" st0)
    as (tabs & st1 & os & st2 & Hids & Hos & _ & Hrun & Hlog & _).
  vm_compute in Hids. injection Hids as <- <-.
  vm_compute in Hos. injection Hos as <- Hst2.
  exists st2. split; [exact Hrun|].
  apply (Hlog "2"). right. now left.
Defined.

(** Tab 2 cannot be exported: it is logged and skipped, tab 1 is kept. *)
Example create_spreadsheet_partial :
  exists st' : State,
    create_spreadsheet sample_decimal (serve sheet_site) "sheetD" st0 = (Ok [("1.csv", "e,f")], st')
    /\ In (LogError "Failed to fetch sheet 2 for sheetD") (logs st').
Proof. eexists. split; [reflexivity|]. vm_compute. tauto. Qed.

(** No tab of an unreachable spreadsheet can be exported. *)
Example create_spreadsheet_unreachable :
  exists st' : State,
    create_spreadsheet sample_decimal (serve sheet_site) "nowhere" st0
    = (Raise (Exception "No sheet could be fetched"), st').
Proof. eexists. reflexivity. Qed.

(** ** Titles *)

(** C6, the input on which the code fails: a spreadsheet whose preview page has
    an empty title element. *)
Lemma get_spreadsheet_title_raises_on_empty_title_witness :
  exists st' : State,
    get_spreadsheet_title (serve untitled_site) sheet_parser "sheetB" st0
    = (Raise TypeError, st').
Proof.
  apply (get_spreadsheet_title_raises_on_empty_title (serve untitled_site) sheet_parser
           "sheetB" st0 (page untitled_text) untitled_soup (Tag "title" [] []));
    reflexivity.
Defined.

(** The whole spreadsheet is lost to the archive, although its tab can be
    exported. *)
Example download_loses_untitled_spreadsheet :
  exists st' : State,
    download sample_decimal (serve untitled_site) sheet_parser
        sample_prettify sample_docx cpython_refusal
        (Some "csv") ["sheetB"] st0 = (Ok [], st')
    /\ create_sheet (serve untitled_site) "sheetB" "0" st0
       = (Ok (Some "a,b"),
          add_request
            "https://docs.google.com/spreadsheets/d/sheetB/export?format=csv&gid=0" st0).
Proof. eexists. split; reflexivity. Qed.

Example get_spreadsheet_title_sanitized :
  exists st' : State,
    get_spreadsheet_title (serve sheet_site) sheet_parser "sheetC" st0
    = (Ok "My_Sheet_Q1_2024", st').
Proof. eexists. reflexivity. Qed.

(** ** Documents *)

(** C2 fails as stated: the page of [docA] is fetched and has its content
    container, and [create_document] raises all the same, the container
    holding no nested [div]. *)
Lemma create_document_raises_with_container :
  exists (r : Response) (soup outer : Node) (st' : State),
    fetched (serve doc_site (requests st0) (mobilebasic_url "docA")) = Some r
    /\ doc_parser (text r) = Ok soup
    /\ find_div_doc soup = Some outer
    /\ create_document (serve doc_site) doc_parser sample_prettify sample_docx "docA" st0
       = (Raise AttributeError, st').
Proof. do 4 eexists. repeat split; reflexivity. Qed.

(** The page of [docE] is fetched, and the tree builder rejects its markup:
    the exception of the builder comes out of [create_document]. *)
Example create_document_rejected_markup :
  exists st' : State,
    create_document (serve doc_site) doc_parser sample_prettify sample_docx "docE" st0
    = (Raise ParserRejectedMarkup, st')
    /\ requests st' = ["https://docs.google.com/document/d/docE/mobilebasic"]
    /\ logs st' = [].
Proof. eexists. repeat split; reflexivity. Qed.

(** A page with a title: the file is named after the title. *)
Lemma create_document_raises_iff_witness :
  exists (data : bytes) (st' : State),
    create_document (serve doc_site) doc_parser sample_prettify sample_docx "docC" st0
    = (Ok ("My_Doc_v1_2.docx", data), st').
Proof.
  destruct (create_document_raises_iff (serve doc_site) doc_parser sample_prettify
              sample_docx "docC" st0) as (res & st' & Hrun & _ & Hname).
  assert (Hres : res = Ok ("My_Doc_v1_2.docx", "PK:docx:<div>...</div>")).
  { vm_compute in Hrun. now injection Hrun as <- _. }
  destruct (Hname _ _ Hres) as (r & soup & outer & inner & _).
  exists "PK:docx:<div>...</div>", st'. now rewrite Hrun, Hres.
Defined.

(** C10 fails as stated: the page of [docB] is fetched, has its content
    container and no title element, and is not resolved. *)
Lemma create_document_untitled_not_resolved :
  exists (r : Response) (soup outer : Node) (st' : State),
    fetched (serve doc_site (requests st0) (mobilebasic_url "docB")) = Some r
    /\ doc_parser (text r) = Ok soup
    /\ find_div_doc soup = Some outer
    /\ soup_title soup = None
    /\ create_document (serve doc_site) doc_parser sample_prettify sample_docx "docB" st0
       = (Raise AttributeError, st').
Proof. do 4 eexists. repeat split; reflexivity. Qed.

(** A page without title element whose container holds a [div]. *)
Lemma create_document_fallback_name_witness :
  exists st' : State,
    create_document (serve doc_site) doc_parser sample_prettify sample_docx "docD" st0
    = (Ok ("document_docD.docx", "PK:docx:<div>...</div>"), st').
Proof.
  apply (create_document_fallback_name (serve doc_site) doc_parser sample_prettify
           sample_docx "docD" st0 (page untitled_doc_text) untitled_doc_soup
           (Tag "div" ["doc"] [Tag "div" [] [Tag "p" [] [NavigableString "Hello"]]])
           (Tag "div" [] [Tag "p" [] [NavigableString "Hello"]])).
  - reflexivity.
  - reflexivity.
  - reflexivity.
  - reflexivity.
  - reflexivity.
  - left. reflexivity.
Defined.

(** ** Archives *)

(** Of three documents the second cannot be resolved: the archive holds the
    two others and the failure is logged. *)
Lemma download_keeps_successes_witness :
  exists (a : Archive) (st' : State),
    download sample_decimal (serve doc_site) doc_parser
        sample_prettify sample_docx cpython_refusal
        (Some "docx") ["docC"; "docA"; "docD"] st0 = (Ok a, st')
    /\ paths a = ["My_Doc_v1_2.docx"; "document_docD.docx"]
    /\ In (LogException "Failed to process document ID: docA") (logs st').
Proof.
  destruct (download_keeps_successes sample_decimal (serve doc_site) doc_parser
      sample_prettify sample_docx cpython_refusal (Some "docx") ["docC"; "docA"; "docD"] st0)
    as (os & st' & Hrun & _ & Hdl & Hlog & _).
  exists (archived cpython_refusal os), st'. split; [exact Hdl|].
  vm_compute in Hrun. injection Hrun as <- <-.
  split; [reflexivity|]. cbn. tauto.
Defined.

(** C1 fails as stated: the path of tab 7 of [sheetL] has 65535 bytes and is
    written, that of tab 10 has one more and [writestr] raises.  The only id
    of the batch has failed and is logged as failed, and the archive holds
    its first tab all the same.  (The name of the member is compared by
    [String.eqb], for its length.) *)
Lemma download_keeps_partial_members :
  let r :=
    download sample_decimal (serve long_site) long_parser
        sample_prettify sample_docx cpython_refusal (Some "csv") ["sheetL"] st0 in
  match fst r with
  | Ok [(name, data)] => String.eqb name (long_title +++ "/7.csv") && String.eqb data "a,b"
  | _ => false
  end = true
  /\ N.of_nat (String.length (long_title +++ "/7.csv")) = 65535%N
  /\ N.of_nat (String.length (long_title +++ "/10.csv")) = 65536%N
  /\ logs (snd r) =
       [LogInfo "Successfully fetched sheet 7";
        LogInfo "Successfully fetched sheet 10";
        LogException "Failed to process document ID: sheetL"].
Proof.
  split; [vm_compute; reflexivity|]. split; [vm_compute; reflexivity|].
  split; vm_compute; reflexivity.
Qed.

(** [writestr] cuts a name at its first NUL character, and turns down a name
    of more than 65535 bytes, a name with a lone surrogate and an empty name,
    leaving the archive as it was. *)
Example writestr_names :
  let st := mkState [] [] [("a.docx", "PK")] in
  let surrogate :=
    String (ascii_of_nat 237) (String (ascii_of_nat 160) (String (ascii_of_nat 189) "")) in
  writestr cpython_refusal ("b.docx" +++ String zero "junk") "PK" st
  = (Ok tt, mkState [] [] [("a.docx", "PK"); ("b.docx", "PK")])
  /\ writestr cpython_refusal (surrogate +++ ".docx") "PK" st = (Raise UnicodeEncodeError, st)
  /\ writestr cpython_refusal (String zero "b.docx") "PK" st = (Raise IndexError, st)
  /\ writestr cpython_refusal "" "PK" st = (Raise IndexError, st)
  /\ fst (writestr cpython_refusal (long_title +++ "1234567") "PK" st) = Raise StructError
  /\ zip_file (snd (writestr cpython_refusal (long_title +++ "1234567") "PK" st))
     = [("a.docx", "PK")].
Proof.
  do 4 (split; [reflexivity|]). split; vm_compute; reflexivity.
Qed.

Example download_nothing :
  download sample_decimal (serve doc_site) doc_parser
      sample_prettify sample_docx cpython_refusal
      (Some "docx") [] st0
  = (Ok [], st0).
Proof. reflexivity. Qed.

Example download_invalid_type :
  exists st' : State,
    download sample_decimal (serve doc_site) doc_parser
        sample_prettify sample_docx cpython_refusal
        (Some "pdf") ["docC"; "docD"] st0 = (Ok [], st')
    /\ logs st' = [LogException "Failed to process document ID: docC";
                   LogException "Failed to process document ID: docD"]
    /\ requests st' = [].
Proof. eexists. repeat split; reflexivity. Qed.

(** One spreadsheet with two tabs: two members under one directory. *)
Example download_spreadsheet :
  exists st' : State,
    download sample_decimal (serve sheet_site) sheet_parser
        sample_prettify sample_docx cpython_refusal
        (Some "csv") ["sheetC"] st0
    = (Ok [("My_Sheet_Q1_2024/7.csv", "a,b"); ("My_Sheet_Q1_2024/3.csv", "c,d")], st').
Proof. eexists. reflexivity. Qed.



(** ** Identifiers *)

(** C9 fails as stated: an id with slashes, a question mark and a hash is
    requested as it is. *)
Lemma download_requests_unsafe_id :
  safe_id "docC/../x?y=1#z" = false
  /\ requests (snd (download sample_decimal (serve doc_site) doc_parser
      sample_prettify sample_docx cpython_refusal
      (Some "docx") ["docC/../x?y=1#z"] st0))
     = ["https://docs.google.com/document/d/docC/../x?y=1#z/mobilebasic"].
Proof. split; reflexivity. Qed.

Lemma download_requests_every_id_witness :
  In "https://docs.google.com/spreadsheets/u/0/d/sheet C&x/htmlview"
     (requests (snd (download sample_decimal (serve sheet_site) sheet_parser
         sample_prettify sample_docx cpython_refusal
         (Some "csv") ["sheetC"; "sheet C&x"] st0))).
Proof.
  pose proof (download_requests_every_id sample_decimal (serve sheet_site) sheet_parser
      sample_prettify sample_docx cpython_refusal (Some "csv") ["sheetC"; "sheet C&x"] st0
                "sheet C&x" (or_intror (or_introl eq_refl))) as H.
  cbv zeta in H. destruct H as (_ & Hcsv & _).
  exact (Hcsv eq_refl).
Defined.

(** ** Further samples *)

Lemma re_sub_seps_idempotent_witness : re_sub_seps "My_Sheet_Q1_2024" = "My_Sheet_Q1_2024".
Proof.
  destruct (re_sub_seps_idempotent "My_Sheet_Q1_2024") as (_ & _ & Hfix & _).
  apply Hfix. reflexivity.
Defined.

Lemma get_spreadsheet_title_clean_witness : clean "My_Sheet_Q1_2024" = true.
Proof.
  destruct (get_spreadsheet_title_clean (serve sheet_site) sheet_parser "sheetC" st0)
    as (_ & Hname).
  destruct (Hname "My_Sheet_Q1_2024" eq_refl) as [Hfallback | Hclean].
  - discriminate Hfallback.
  - exact Hclean.
Defined.

Lemma create_spreadsheet_files_witness :
  fst (create_spreadsheet sample_decimal (serve sheet_site) "sheetC" st0)
  = Ok [("7.csv", "a,b"); ("3.csv", "c,d")]
  /\ NoDup ["7.csv"; "3.csv"].
Proof.
  split; [reflexivity|].
  destruct (create_spreadsheet_files sample_decimal (serve sheet_site) "sheetC" st0
              [("7.csv", "a,b"); ("3.csv", "c,d")]
              (snd (create_spreadsheet sample_decimal (serve sheet_site) "sheetC" st0)) eq_refl)
    as (_ & Hnd & _).
  exact Hnd.
Defined.

Lemma download_invalid_doc_type_witness :
  download sample_decimal (serve doc_site) doc_parser
      sample_prettify sample_docx cpython_refusal
      (Some "pdf") ["docC"; "docD"] st0
  = (Ok [],
     mkState []
       [LogException "Failed to process document ID: docC";
        LogException "Failed to process document ID: docD"] []).
Proof.
  apply (download_invalid_doc_type sample_decimal (serve doc_site) doc_parser
      sample_prettify sample_docx cpython_refusal
      (Some "pdf") ["docC"; "docD"] st0); reflexivity.
Defined.

Lemma csv_members_under_title_witness :
  exists tab,
    tab_id sample_decimal tab
    /\ "My_Sheet_Q1_2024/7.csv" = "My_Sheet_Q1_2024" +++ "/" +++ tab +++ ".csv".
Proof.
  destruct (csv_members_under_title sample_decimal (serve sheet_site) sheet_parser
      sample_prettify sample_docx cpython_refusal "sheetC" st0
              [("My_Sheet_Q1_2024/7.csv", "a,b"); ("My_Sheet_Q1_2024/3.csv", "c,d")]
              (snd (entries_of sample_decimal (serve sheet_site) sheet_parser
                  sample_prettify sample_docx
                  (Some "csv") "sheetC" st0)) eq_refl)
    as (dirname & st1 & Htitle & _ & Hform & _).
  vm_compute in Htitle. injection Htitle as <- _.
  exact (Forall_inv (Hform eq_refl)).
Defined.

Lemma csv_preview_fetched_twice_witness :
  exists exports,
    exports <> []
    /\ requests (snd (entries_of sample_decimal (serve sheet_site) sheet_parser
        sample_prettify sample_docx
        (Some "csv") "sheetC" st0))
       = "https://docs.google.com/spreadsheets/u/0/d/sheetC/htmlview"
         :: "https://docs.google.com/spreadsheets/u/0/d/sheetC/htmlview" :: exports.
Proof.
  destruct (csv_preview_fetched_twice sample_decimal (serve sheet_site) sheet_parser
      sample_prettify sample_docx "sheetC" st0) as (_ & Htwice).
  exact (Htwice "My_Sheet_Q1_2024" eq_refl).
Defined.

Lemma download_empty_only_if_all_failed_witness :
  exists (os : list (string * Result Archive)) (st' : State),
    download sample_decimal (serve doc_site) doc_parser
        sample_prettify sample_docx cpython_refusal
        (Some "docx") ["docA"; "docB"] st0 = (Ok [], st')
    /\ failed cpython_refusal os = ["docA"; "docB"].
Proof.
  destruct (download_empty_only_if_all_failed sample_decimal (serve doc_site) doc_parser
      sample_prettify sample_docx cpython_refusal (Some "docx") ["docA"; "docB"] st0)
    as (os & st' & Hrun & Hdl & _).
  exists os, st'. vm_compute in Hrun. injection Hrun as <- <-.
  split; [exact Hdl | reflexivity].
Defined.
